(** * Content-processing workflow (examples/langgraph/content-processor.py)

    A shallow embedding of the LangGraph example: the [ContentState]
    dictionary, the four node functions, the validation router, the graph
    built by [_create_workflow] and the run loop that threads the state
    through it.

    Python [str] values are modelled by [string], one [ascii] per character,
    the code of the [ascii] being the code point of the character: the
    strings of the model are the texts of code points below 256.  On these
    [len], [strip], [rstrip], [replace], [endswith] and [in] are exact;
    [capitalize] is exact on ASCII text, and a statement that pins down a
    capitalized text does so for contents that satisfy [Py.isascii].  A
    character
    above 255 cannot be held: the pictographs of the output templates,
    which the code only copies, stand as their UTF-8 bytes; [len] is never
    taken of a template, only of [content] and [processed_content].  Python
    integers that occur here are lengths, modelled by [nat]. *)

From Stdlib Require Import String Ascii List Arith Bool Lia.
From Stdlib Require Import Decimal DecimalString DecimalNat.
From Stdlib Require Import Relations.Relation_Operators.
Import ListNotations.
Open Scope string_scope.

(** ** Python string primitives used by the nodes *)

Module Py.

(** [str.isspace] on one character below 256, which is also what [strip]
    removes: TAB, LF, VT, FF, CR (9-13), the separators FS GS RS US (28-31),
    the space (32), NEL (133) and the no-break space (160). *)
Definition isspace (c : ascii) : bool :=
  let n := nat_of_ascii c in
  ((9 <=? n)%nat && (n <=? 13)%nat) || ((28 <=? n)%nat && (n <=? 32)%nat) ||
  (n =? 133)%nat || (n =? 160)%nat.

(** [s.isascii()]: every character is below 128 (true of the empty
    string). *)
Fixpoint isascii (s : string) : bool :=
  match s with
  | EmptyString => true
  | String c r => (nat_of_ascii c <? 128)%nat && isascii r
  end.

Fixpoint lstrip (s : string) : string :=
  match s with
  | EmptyString => EmptyString
  | String c r => if isspace c then lstrip r else s
  end.

Fixpoint rstrip (s : string) : string :=
  match s with
  | EmptyString => EmptyString
  | String c r =>
      match rstrip r with
      | EmptyString => if isspace c then EmptyString else String c EmptyString
      | r' => String c r'
      end
  end.

(** [s.strip()] *)
Definition strip (s : string) : string := rstrip (lstrip s).

(** [s.replace(old, new)] for a non-empty [old]: occurrences are found left
    to right and do not overlap.  [skip] counts the characters of a match
    that are still to be dropped. *)
Fixpoint replace_from (skip : nat) (old new s : string) : string :=
  match s with
  | EmptyString => EmptyString
  | String c r =>
      match skip with
      | S k => replace_from k old new r
      | O =>
          if prefix old s
          then new ++ replace_from (String.length old - 1) old new r
          else String c (replace_from 0 old new r)
      end
  end.

Definition replace (s old new : string) : string := replace_from 0 old new s.

Definition is_lower (c : ascii) : bool :=
  let n := nat_of_ascii c in (97 <=? n)%nat && (n <=? 122)%nat.

Definition is_upper (c : ascii) : bool :=
  let n := nat_of_ascii c in (65 <=? n)%nat && (n <=? 90)%nat.

Definition upper_char (c : ascii) : ascii :=
  if is_lower c then ascii_of_nat (nat_of_ascii c - 32) else c.

Definition lower_char (c : ascii) : ascii :=
  if is_upper c then ascii_of_nat (nat_of_ascii c + 32) else c.

Fixpoint lower (s : string) : string :=
  match s with
  | EmptyString => EmptyString
  | String c r => String (lower_char c) (lower r)
  end.

(** [s.capitalize()] on ASCII text: first character upper-cased, the rest
    lower-cased.  Only the letters a-z and A-Z are mapped; the case tables
    of the other characters are not modelled, so the statements below that
    pin down the result of [capitalize] are made under [isascii]. *)
Definition capitalize (s : string) : string :=
  match s with
  | EmptyString => EmptyString
  | String c r => String (upper_char c) (lower r)
  end.

(** [s.endswith(suffix)] *)
Fixpoint endswith (s suffix : string) : bool :=
  String.eqb s suffix ||
  match s with
  | EmptyString => false
  | String _ r => endswith r suffix
  end.

(** [sub in s] *)
Fixpoint contains (sub s : string) : bool :=
  prefix sub s ||
  match s with
  | EmptyString => false
  | String _ r => contains sub r
  end.

(** [str(n)] / the [{n}] of an f-string, for a length [n]. *)
Definition str (n : nat) : string := NilZero.string_of_uint (Nat.to_uint n).

(** [c * n] for a one-character string, used to build long inputs. *)
Fixpoint mul (c : ascii) (n : nat) : string :=
  match n with
  | O => EmptyString
  | S k => String c (mul c k)
  end.

(** Truthiness of a string: [bool(s)]. *)
Definition truthy (s : string) : bool :=
  match s with EmptyString => false | _ => true end.

End Py.

Definition nl : string := String (ascii_of_nat 10) EmptyString.

(** ** The state dictionary *)

(** [ContentState] is a [TypedDict]; a node receives one and returns one
    that holds only the keys it sets, so every key is optional here:
    [None] is an absent key. *)
Record ContentState : Type := mkState {
  messages : option (list string);
  current_step : option string;
  content : option string;
  processed_content : option string;
  final_result : option string;
  error : option string
}.

(** [d.get(key, dflt)] *)
Definition get {A : Type} (field : option A) (dflt : A) : A :=
  match field with
  | Some v => v
  | None => dflt
  end.

(** The empty dictionary [{}]. *)
Definition no_update : ContentState := mkState None None None None None None.

(** ** Nodes (methods of [ContentProcessor]) *)

Definition validate_input (state : ContentState) : ContentState :=
  let content := get (content state) "" in
  if negb (Py.truthy content) || (String.length (Py.strip content) =? 0)%nat then
    mkState None (Some "validate_input") None None None
            (Some "Input content is empty or invalid")
  else if (1000 <? String.length content)%nat then
    mkState None (Some "validate_input") None None None
            (Some "Input content is too long (max 1000 characters)")
  else
    mkState (Some ["Input validated: " ++ Py.str (String.length content) ++ " characters"])
            (Some "validate_input")
            (Some (Py.strip content))
            None None
            (Some "").

Definition process_content (state : ContentState) : ContentState :=
  let content := get (content state) "" in
  let processed := Py.strip content in
  let processed := Py.replace processed "  " " " in
  let processed := Py.capitalize processed in
  let processed :=
    if negb (Py.endswith processed ".") then processed ++ "." else processed in
  mkState (Some ["Content processed: " ++ Py.str (String.length processed) ++ " characters"])
          (Some "process_content")
          None
          (Some processed)
          None
          (Some "").

(** The f-string of [format_output] before [.strip()] is applied to it. *)
Definition summary_template (processed_content : string) (original processed steps : nat) : string :=
  nl ++ "📝 Processed Content:" ++ nl ++
  processed_content ++ nl ++
  nl ++
  "📊 Statistics:" ++ nl ++
  "- Original length: " ++ Py.str original ++ " characters" ++ nl ++
  "- Processed length: " ++ Py.str processed ++ " characters" ++ nl ++
  "- Processing steps: " ++ Py.str steps ++ nl ++
  "        ".

Definition format_output (state : ContentState) : ContentState :=
  let processed_content := get (processed_content state) "" in
  let result :=
    Py.strip (summary_template processed_content
                (String.length (get (content state) ""))
                (String.length processed_content)
                (List.length (get (messages state) []))) in
  mkState (Some ["Output formatted successfully"])
          (Some "format_output")
          None None
          (Some result)
          (Some "").

Definition handle_error (state : ContentState) : ContentState :=
  let error := get (error state) "Unknown error occurred" in
  mkState (Some ["Error handled: " ++ error])
          (Some "handle_error")
          None None
          (Some ("❌ Error: " ++ error))
          (Some error).

(** ** Router *)

(** ['error' if state.get('error') else 'process']: an absent key gives
    [None], which is falsy like the empty string. *)
Definition should_process (state : ContentState) : string :=
  if match error state with Some e => Py.truthy e | None => false end
  then "error" else "process".

(** ** Merging a node's update into the state *)

Inductive field : Type :=
  | F_messages | F_current_step | F_content
  | F_processed_content | F_final_result | F_error.

Inductive strategy : Type := Replace | Append.

(** The reducers declared by the [ContentState] annotations: [messages] is
    [Annotated[List[str], operator.add]], every other key is plain. *)
Definition strategy_of (f : field) : strategy :=
  match f with
  | F_messages => Append
  | _ => Replace
  end.

Definition replace_field {A : Type} (current update : option A) : option A :=
  match update with
  | Some v => Some v
  | None => current
  end.

Definition append_field {A : Type} (current update : option (list A)) : option (list A) :=
  match update with
  | Some v => Some (get current [] ++ v)%list
  | None => current
  end.

(** Modelled from the spec: the merge of a partial update into the state is
    done by the graph library, which is not part of the repository.  Per
    section 4.1 a key present in the update is combined by its declared
    strategy (append: the existing sequence followed by the new values,
    replace: the new value), and an absent key keeps the current value. *)
Definition merge (current update : ContentState) : ContentState :=
  mkState (append_field (messages current) (messages update))
          (replace_field (current_step current) (current_step update))
          (replace_field (content current) (content update))
          (replace_field (processed_content current) (processed_content update))
          (replace_field (final_result current) (final_result update))
          (replace_field (error current) (error update)).

(** A key's value, whatever its type, for statements that range over keys. *)
Inductive value : Type :=
  | VStr (s : string)
  | VList (l : list string).

Definition lookup (f : field) (st : ContentState) : option value :=
  match f with
  | F_messages => option_map VList (messages st)
  | F_current_step => option_map VStr (current_step st)
  | F_content => option_map VStr (content st)
  | F_processed_content => option_map VStr (processed_content st)
  | F_final_result => option_map VStr (final_result st)
  | F_error => option_map VStr (error st)
  end.

(** ** The graph built by [_create_workflow] *)

(** The sentinel [END] of the graph library. *)
Definition END : string := "__end__".

Inductive Edge : Type :=
  | Unconditional (destination : string)
  | Conditional (router : ContentState -> string) (table : list (string * string)).

Record StateGraph : Type := mkGraph {
  nodes : list (string * (ContentState -> ContentState));
  edges : list (string * Edge);
  entry_point : string
}.

Definition _create_workflow : StateGraph :=
  mkGraph
    [ ("validate_input", validate_input);
      ("process_content", process_content);
      ("format_output", format_output);
      ("handle_error", handle_error) ]
    [ ("validate_input",
       Conditional should_process
         [ ("process", "process_content"); ("error", "handle_error") ]);
      ("process_content", Unconditional "format_output");
      ("format_output", Unconditional END);
      ("handle_error", Unconditional END) ]
    "validate_input".

(** Dictionary lookup by a string key. *)
Fixpoint assoc {A : Type} (k : string) (l : list (string * A)) : option A :=
  match l with
  | [] => None
  | (k', v) :: rest => if String.eqb k k' then Some v else assoc k rest
  end.

(** ** Running a graph *)

Inductive cause : Type :=
  | UnknownNode (name : string)
  | MissingEdge (name : string)
  | RouterInconsistency (label : string)
  | StepLimitExceeded.

Inductive outcome : Type :=
  | Completed (final : ContentState)
  | Failed (why : cause) (at_failure : ContentState).

(** Modelled from the spec: the executor belongs to the graph library, which
    is not part of the repository.  Section 4.4: the next node after [name]
    is the fixed destination of an unconditional edge, or the destination
    that the edge's table gives for the label the router returns on the
    freshly merged state; an undeclared label is a failure. *)
Definition next (g : StateGraph) (name : string) (st : ContentState) : cause + string :=
  match assoc name (edges g) with
  | None => inl (MissingEdge name)
  | Some (Unconditional d) => inr d
  | Some (Conditional router table) =>
      match assoc (router st) table with
      | Some d => inr d
      | None => inl (RouterInconsistency (router st))
      end
  end.

Inductive run_state : Type :=
  | Running (name : string) (st : ContentState) (steps : nat)
  | Finished (o : outcome).

(** Modelled from the spec: one transition of the executor (section 4.4).
    The node is applied, its update merged as a whole, the next node
    resolved; the step counter grows by one; a run that has used up
    [max_steps] fails with [StepLimitExceeded]. *)
Inductive step (g : StateGraph) (max_steps : nat) : run_state -> run_state -> Prop :=
  | step_limit name st n :
      max_steps <= n ->
      step g max_steps (Running name st n) (Finished (Failed StepLimitExceeded st))
  | step_unknown name st n :
      n < max_steps ->
      assoc name (nodes g) = None ->
      step g max_steps (Running name st n) (Finished (Failed (UnknownNode name) st))
  | step_failed name st n node why :
      n < max_steps ->
      assoc name (nodes g) = Some node ->
      next g name (merge st (node st)) = inl why ->
      step g max_steps (Running name st n) (Finished (Failed why (merge st (node st))))
  | step_end name st n node :
      n < max_steps ->
      assoc name (nodes g) = Some node ->
      next g name (merge st (node st)) = inr END ->
      step g max_steps (Running name st n) (Finished (Completed (merge st (node st))))
  | step_next name st n node d :
      n < max_steps ->
      assoc name (nodes g) = Some node ->
      next g name (merge st (node st)) = inr d ->
      d <> END ->
      step g max_steps (Running name st n) (Running d (merge st (node st)) (S n)).

(** A run from [r] that ends with outcome [o]. *)
Definition runs (g : StateGraph) (max_steps : nat) (r : run_state) (o : outcome) : Prop :=
  clos_refl_trans_1n run_state (step g max_steps) r (Finished o).

(** Modelled from the spec: the same executor as a function; [fuel] is the
    number of steps still allowed. *)
Fixpoint exec (g : StateGraph) (fuel : nat) (name : string) (st : ContentState) : outcome :=
  match fuel with
  | O => Failed StepLimitExceeded st
  | S fuel' =>
      match assoc name (nodes g) with
      | None => Failed (UnknownNode name) st
      | Some node =>
          let st' := merge st (node st) in
          match next g name st' with
          | inl why => Failed why st'
          | inr d => if String.eqb d END then Completed st' else exec g fuel' d st'
          end
      end
  end.

(** Modelled from the spec: the default step bound of a run (section 6). *)
Definition max_steps_default : nat := 50.

(** [app.invoke(initial_state)]: the input is written into the empty state,
    then the graph runs from its entry point. *)
Definition invoke (g : StateGraph) (initial_state : ContentState) : outcome :=
  exec g max_steps_default (entry_point g) (merge no_update initial_state).

(** The run of [invoke] as a configuration of the step relation. *)
Definition start (g : StateGraph) (initial_state : ContentState) : run_state :=
  Running (entry_point g) (merge no_update initial_state) 0.

Definition initial_state (content : string) : ContentState :=
  mkState (Some []) (Some "") (Some content) (Some "") (Some "") (Some "").

(** [ContentProcessor.run] *)
Definition run (content : string) : outcome :=
  invoke _create_workflow (initial_state content).

(** * The AutoGen example (examples/autogen/software-dev-team.py) *)

(** The double quote, which a string literal cannot hold undoubled. *)
Definition dq : string := String (ascii_of_nat 34) EmptyString.

Module DevTeam.

(** A value of a chat message dictionary: [None] or a [str]. *)
Inductive pyval : Type :=
  | PNone
  | PStr (s : string).

(** [lambda x: x.get("content", "").rstrip().endswith("TERMINATE")], the
    termination test of the ProductOwner agent.  A message is a dictionary;
    the result is [None] when the call raises, which it does when the
    content is not a string ([None] has no [rstrip]). *)
Definition is_termination_msg (x : list (string * pyval)) : option bool :=
  match get (assoc "content" x) (PStr "") with
  | PStr content => Some (Py.endswith (Py.rstrip content) "TERMINATE")
  | PNone => None
  end.

(** What the example reads back of an agent: its name, its system message
    and its bound on consecutive automatic replies. *)
Record Agent : Type := mkAgent {
  name : string;
  system_message : string;
  max_consecutive_auto_reply : nat
}.

(** The dictionary returned by [_create_agents], in insertion order. *)
Definition _create_agents : list (string * Agent) :=
  [("product_owner",
     mkAgent "ProductOwner"
       ("You are a Product Owner who provides requirements and accepts final deliverables. " ++ nl ++
        "                             You can provide feedback and make decisions about the software being developed.")
       10);
    ("architect",
     mkAgent "SoftwareArchitect"
       ("You are a Senior Software Architect with 15+ years of experience." ++ nl ++
        "                             Your role is to:" ++ nl ++
        "                             - Analyze requirements and create technical specifications" ++ nl ++
        "                             - Design system architecture and data flow" ++ nl ++
        "                             - Define technology stack and design patterns" ++ nl ++
        "                             - Ensure scalability, security, and maintainability" ++ nl ++
        "                             - Break down complex features into implementable components" ++ nl ++
        "                             " ++ nl ++
        "                             Always provide clear, technical specifications that developers can follow.")
       8);
    ("developer",
     mkAgent "SeniorDeveloper"
       ("You are a Senior Full-Stack Developer with expertise in multiple programming languages." ++ nl ++
        "                             Your role is to:" ++ nl ++
        "                             - Write clean, efficient, and well-documented code" ++ nl ++
        "                             - Implement features according to technical specifications" ++ nl ++
        "                             - Follow best practices and coding standards" ++ nl ++
        "                             - Consider performance, security, and maintainability" ++ nl ++
        "                             - Suggest technical improvements and optimizations" ++ nl ++
        "                             " ++ nl ++
        "                             Always write production-quality code with proper error handling and comments.")
       8);
    ("qa_engineer",
     mkAgent "QAEngineer"
       ("You are a Senior QA Engineer specializing in test automation and quality assurance." ++ nl ++
        "                             Your role is to:" ++ nl ++
        "                             - Review code for potential bugs and issues" ++ nl ++
        "                             - Create comprehensive test plans and test cases" ++ nl ++
        "                             - Write automated tests (unit, integration, end-to-end)" ++ nl ++
        "                             - Identify edge cases and potential failure scenarios" ++ nl ++
        "                             - Ensure code quality and adherence to requirements" ++ nl ++
        "                             " ++ nl ++
        "                             Focus on thorough testing and quality validation.")
       6);
    ("devops_engineer",
     mkAgent "DevOpsEngineer"
       ("You are a DevOps Engineer with expertise in CI/CD, infrastructure, and deployment." ++ nl ++
        "                             Your role is to:" ++ nl ++
        "                             - Design deployment strategies and CI/CD pipelines" ++ nl ++
        "                             - Configure infrastructure and monitoring" ++ nl ++
        "                             - Ensure security and compliance requirements" ++ nl ++
        "                             - Optimize for scalability and performance" ++ nl ++
        "                             - Provide deployment and operational guidance" ++ nl ++
        "                             " ++ nl ++
        "                             Focus on automated, reliable, and secure deployment processes.")
       6);
    ("tech_writer",
     mkAgent "TechnicalWriter"
       ("You are a Technical Writer specializing in software documentation." ++ nl ++
        "                             Your role is to:" ++ nl ++
        "                             - Create clear, comprehensive documentation" ++ nl ++
        "                             - Write API documentation and user guides" ++ nl ++
        "                             - Document architecture decisions and technical specifications" ++ nl ++
        "                             - Ensure documentation is accessible to different audiences" ++ nl ++
        "                             - Maintain consistency in documentation style and format" ++ nl ++
        "                             " ++ nl ++
        "                             Focus on creating documentation that helps users and developers.")
       5) ].

(** The opening message of [start_development_project]. *)
Definition initial_message (project_description : string) : string :=
  nl ++
  "üöÄ NEW SOFTWARE DEVELOPMENT PROJECT" ++ nl ++
  nl ++
  "Project Description:" ++ nl ++
  project_description ++ nl ++
  nl ++
  "Team, let's work together to deliver this project! Here's our process:" ++ nl ++
  nl ++
  "1. **Requirements Analysis** (Product Owner + Architect)" ++ nl ++
  "   - Clarify requirements and constraints" ++ nl ++
  "   - Define technical specifications" ++ nl ++
  nl ++
  "2. **Architecture Design** (Architect)" ++ nl ++
  "   - Design system architecture" ++ nl ++
  "   - Define technology stack and patterns" ++ nl ++
  nl ++
  "3. **Implementation Planning** (Developer + Architect)" ++ nl ++
  "   - Break down features into tasks" ++ nl ++
  "   - Estimate effort and timeline" ++ nl ++
  nl ++
  "4. **Development** (Developer)" ++ nl ++
  "   - Implement core functionality" ++ nl ++
  "   - Write clean, documented code" ++ nl ++
  nl ++
  "5. **Quality Assurance** (QA Engineer)" ++ nl ++
  "   - Review code and create tests" ++ nl ++
  "   - Validate functionality" ++ nl ++
  nl ++
  "6. **Deployment Planning** (DevOps Engineer)" ++ nl ++
  "   - Design CI/CD pipeline" ++ nl ++
  "   - Plan infrastructure needs" ++ nl ++
  nl ++
  "7. **Documentation** (Technical Writer)" ++ nl ++
  "   - Create user and developer documentation" ++ nl ++
  nl ++
  "Let's start with requirements analysis. Product Owner, please provide any additional details or constraints." ++ nl ++
  nl ++
  "When ready to conclude, type " ++ dq ++ "TERMINATE" ++ dq ++ " to end the discussion." ++ nl ++
  "        ".

(** The opening message of [quick_code_review]; [language] defaults to
    "python" in the source. *)
Definition review_message (code language : string) : string :=
  nl ++
  "üîç CODE REVIEW SESSION" ++ nl ++
  nl ++
  "Please review the following " ++ language ++ " code:" ++ nl ++
  nl ++
  "```" ++ language ++ nl ++
  code ++ nl ++
  "```" ++ nl ++
  nl ++
  "Team, let's conduct a thorough code review:" ++ nl ++
  nl ++
  "**Developer**: Please explain the code structure and key decisions" ++ nl ++
  "**QA Engineer**: Identify potential issues, edge cases, and testing needs  " ++ nl ++
  "**Architect**: Assess if it follows best practices and patterns" ++ nl ++
  "**DevOps Engineer**: Consider deployment and operational aspects" ++ nl ++
  nl ++
  "Provide constructive feedback and suggestions for improvement." ++ nl ++
  nl ++
  "Type " ++ dq ++ "TERMINATE" ++ dq ++ " when the review is complete." ++ nl ++
  "        ".

(** The opening message of [architecture_discussion]. *)
Definition arch_message (feature_description : string) : string :=
  nl ++
  "üèóÔ∏è ARCHITECTURE DESIGN SESSION" ++ nl ++
  nl ++
  "Feature Description:" ++ nl ++
  feature_description ++ nl ++
  nl ++
  "Team, let's design the architecture for this feature:" ++ nl ++
  nl ++
  "**Architect**: Lead the design discussion" ++ nl ++
  "- Propose system architecture and data flow" ++ nl ++
  "- Define integration points and APIs" ++ nl ++
  "- Consider scalability and performance" ++ nl ++
  nl ++
  "**Developer**: Provide implementation perspective" ++ nl ++
  "- Assess technical feasibility" ++ nl ++
  "- Suggest alternative approaches" ++ nl ++
  "- Estimate complexity" ++ nl ++
  nl ++
  "**QA Engineer**: Consider testability" ++ nl ++
  "- Identify testing challenges" ++ nl ++
  "- Suggest test strategies" ++ nl ++
  nl ++
  "**DevOps Engineer**: Consider operational aspects" ++ nl ++
  "- Deployment strategies" ++ nl ++
  "- Monitoring and observability" ++ nl ++
  "- Security considerations" ++ nl ++
  nl ++
  "Let's create a solid architectural foundation for this feature." ++ nl ++
  nl ++
  "Type " ++ dq ++ "TERMINATE" ++ dq ++ " when the design is finalized." ++ nl ++
  "        ".

(** [s.split('\n')[0]]: the text before the first newline. *)
Fixpoint first_line (s : string) : string :=
  match s with
  | EmptyString => EmptyString
  | String c r => if Ascii.eqb c (ascii_of_nat 10) then EmptyString
                  else String c (first_line r)
  end.

(** [{name: agent.system_message.split('\n')[0] for name, agent in
    self.agents.items()}] *)
Definition get_team_summary (agents : list (string * Agent)) : list (string * string) :=
  List.map (fun entry => (fst entry, first_line (system_message (snd entry)))) agents.

End DevTeam.

(** * The CrewAI example (examples/crewai/research-writing-team.py) *)

Module ResearchCrew.

(** The four agents of the crew, as the attributes that hold them. *)
Inductive AgentId : Type := researcher | analyst | writer | editor.

(** A [Task] as the example builds it; [context] is [None] until
    [execute_research_project] sets it. *)
#[local] Unset Elimination Schemes.
Inductive Task : Type :=
  mkTask (description : string) (agent : AgentId) (expected_output : string)
         (context : option (list Task)).
#[local] Set Elimination Schemes.

Definition description (t : Task) : string :=
  match t with mkTask d _ _ _ => d end.
Definition agent (t : Task) : AgentId :=
  match t with mkTask _ a _ _ => a end.
Definition expected_output (t : Task) : string :=
  match t with mkTask _ _ e _ => e end.
Definition context (t : Task) : option (list Task) :=
  match t with mkTask _ _ _ c => c end.

(** [t.context = tasks] *)
Definition set_context (t : Task) (tasks : list Task) : Task :=
  match t with mkTask d a e _ => mkTask d a e (Some tasks) end.

(** [sep.join(l)] *)
Fixpoint join (sep : string) (l : list string) : string :=
  match l with
  | [] => EmptyString
  | x :: rest =>
      match rest with
      | [] => x
      | _ :: _ => x ++ sep ++ join sep rest
      end
  end.

(** [l or dflt] for an optional list: [None] and the empty list are both
    falsy. *)
Definition or_list (l : option (list string)) (dflt : list string) : list string :=
  match l with
  | Some (x :: rest) => x :: rest
  | _ => dflt
  end.

(** The agents of the crew, in the order [_create_crew] lists them. *)
Definition crew_agents : list AgentId := [researcher; analyst; writer; editor].

Definition create_research_task (topic : string) (focus_areas : option (list string)) : Task :=
  let focus_areas :=
    or_list focus_areas ["current trends"; "key statistics"; "expert opinions"] in
  let focus_str := join ", " focus_areas in
  mkTask
   (nl ++
    "            Research the topic: " ++ dq ++ topic ++ dq ++ nl ++
    "            " ++ nl ++
    "            Focus on these key areas: " ++ focus_str ++ nl ++
    "            " ++ nl ++
    "            Requirements:" ++ nl ++
    "            1. Find at least 5 credible sources" ++ nl ++
    "            2. Gather current statistics and data points" ++ nl ++
    "            3. Identify expert opinions and quotes" ++ nl ++
    "            4. Note any conflicting viewpoints" ++ nl ++
    "            5. Summarize key findings with source citations" ++ nl ++
    "            " ++ nl ++
    "            Deliverable: A comprehensive research report with sources and key findings." ++ nl ++
    "            ")
   researcher
   ("A detailed research report containing:" ++ nl ++
    "            - Executive summary of findings" ++ nl ++
    "            - Key statistics and data points" ++ nl ++
    "            - Expert quotes and opinions" ++ nl ++
    "            - List of credible sources" ++ nl ++
    "            - Identification of knowledge gaps or conflicting information")
   None.

Definition create_analysis_task (research_context : string) : Task :=
  mkTask
   (nl ++
    "            Analyze the research findings and identify key insights, patterns, and trends." ++ nl ++
    "            " ++ nl ++
    "            Context: " ++ research_context ++ nl ++
    "            " ++ nl ++
    "            Requirements:" ++ nl ++
    "            1. Identify the most significant trends and patterns" ++ nl ++
    "            2. Highlight surprising or counter-intuitive findings" ++ nl ++
    "            3. Draw connections between different data points" ++ nl ++
    "            4. Assess the reliability and quality of the data" ++ nl ++
    "            5. Provide strategic recommendations based on the analysis" ++ nl ++
    "            " ++ nl ++
    "            Focus on actionable insights that would be valuable to decision-makers." ++ nl ++
    "            ")
   analyst
   ("A comprehensive analysis report containing:" ++ nl ++
    "            - Key insights and trends identified" ++ nl ++
    "            - Data quality assessment" ++ nl ++
    "            - Strategic recommendations" ++ nl ++
    "            - Risk factors and opportunities" ++ nl ++
    "            - Supporting evidence for all conclusions")
   None.

Definition create_writing_task (content_type audience tone : string) : Task :=
  mkTask
   (nl ++
    "            Create a " ++ content_type ++ " based on the research and analysis for a " ++ audience ++ " audience." ++ nl ++
    "            " ++ nl ++
    "            Requirements:" ++ nl ++
    "            1. Tone: " ++ tone ++ nl ++
    "            2. Include an executive summary" ++ nl ++
    "            3. Structure the content logically with clear headings" ++ nl ++
    "            4. Incorporate data and statistics effectively" ++ nl ++
    "            5. Include relevant quotes and expert opinions" ++ nl ++
    "            6. Ensure all claims are supported by research" ++ nl ++
    "            7. Add a conclusion with key takeaways" ++ nl ++
    "            " ++ nl ++
    "            The content should be engaging, well-structured, and informative." ++ nl ++
    "            ")
   writer
   ("A well-written " ++ content_type ++ " containing:" ++ nl ++
    "            - Compelling introduction" ++ nl ++
    "            - Executive summary" ++ nl ++
    "            - Logical content structure with clear headings" ++ nl ++
    "            - Integrated research findings and analysis" ++ nl ++
    "            - Data visualizations or charts (described)" ++ nl ++
    "            - Expert quotes and citations" ++ nl ++
    "            - Strong conclusion with actionable takeaways" ++ nl ++
    "            - Professional formatting and style")
   None.

Definition create_editing_task (quality_standards : option (list string)) : Task :=
  let quality_standards :=
    or_list quality_standards
      ["grammar and spelling"; "clarity and readability"; "logical flow";
       "fact accuracy"; "professional tone"] in
  let standards_str := join ", " quality_standards in
  mkTask
   (nl ++
    "            Review and edit the written content to ensure the highest quality." ++ nl ++
    "            " ++ nl ++
    "            Focus areas: " ++ standards_str ++ nl ++
    "            " ++ nl ++
    "            Requirements:" ++ nl ++
    "            1. Check for grammar, spelling, and punctuation errors" ++ nl ++
    "            2. Improve clarity and readability" ++ nl ++
    "            3. Ensure logical flow and smooth transitions" ++ nl ++
    "            4. Verify fact accuracy and proper citations" ++ nl ++
    "            5. Maintain consistent tone and style" ++ nl ++
    "            6. Suggest improvements for impact and engagement" ++ nl ++
    "            7. Format the document professionally" ++ nl ++
    "            " ++ nl ++
    "            Provide a polished, publication-ready final version." ++ nl ++
    "            ")
   editor
   ("A polished, final version of the content featuring:" ++ nl ++
    "            - Error-free grammar, spelling, and punctuation" ++ nl ++
    "            - Clear, readable prose" ++ nl ++
    "            - Logical structure and smooth transitions" ++ nl ++
    "            - Verified facts and proper citations" ++ nl ++
    "            - Consistent professional tone" ++ nl ++
    "            - Effective formatting and presentation" ++ nl ++
    "            - Enhanced impact and engagement")
   None.

(** [execute_research_project] up to the kickoff: the list it stores in
    [self.crew.tasks].  The contexts are set in the source's order, so each
    list holds the tasks as they are at the end. *)
Definition execute_research_project
    (topic : string) (focus_areas : option (list string))
    (content_type audience tone : string) : list Task :=
  let research_task := create_research_task topic focus_areas in
  let analysis_task := create_analysis_task ("Research topic: " ++ topic) in
  let writing_task := create_writing_task content_type audience tone in
  let editing_task := create_editing_task None in
  let analysis_task := set_context analysis_task [research_task] in
  let writing_task := set_context writing_task [research_task; analysis_task] in
  let editing_task := set_context editing_task [writing_task] in
  [research_task; analysis_task; writing_task; editing_task].

End ResearchCrew.

(** ** Predicates used in the statements *)

(** Every character of [s] is whitespace (true of the empty string). *)
Fixpoint all_space (s : string) : bool :=
  match s with
  | EmptyString => true
  | String c r => Py.isspace c && all_space r
  end.

(** No character of [s] is whitespace. *)
Fixpoint no_space (s : string) : bool :=
  match s with
  | EmptyString => true
  | String c r => negb (Py.isspace c) && no_space r
  end.

(** The content as the claim on the transformation node words it: every
    whitespace character of [s] is a space, and no two of them are
    adjacent. *)
Fixpoint single_spaced (s : string) : bool :=
  match s with
  | EmptyString => true
  | String c r =>
      (negb (Py.isspace c) || Ascii.eqb c " ") &&
      match r with
      | String c' _ => negb (Py.isspace c && Py.isspace c')
      | EmptyString => true
      end &&
      single_spaced r
  end.

(** [s] begins with a space; [s] without its first character. *)
Definition starts_space (s : string) : bool :=
  match s with
  | String c _ => Ascii.eqb c " "
  | EmptyString => false
  end.

Definition tail (s : string) : string :=
  match s with
  | String _ r => r
  | EmptyString => EmptyString
  end.

(** The summary of [format_output] after [.strip()]: the template without
    its leading newline and its trailing newline and indentation. *)
Definition summary (processed_content : string) (original processed steps : nat) : string :=
  "📝 Processed Content:" ++ nl ++
  processed_content ++ nl ++
  nl ++
  "📊 Statistics:" ++ nl ++
  "- Original length: " ++ Py.str original ++ " characters" ++ nl ++
  "- Processed length: " ++ Py.str processed ++ " characters" ++ nl ++
  "- Processing steps: " ++ Py.str steps.

(** What [process_content] stores for a given content. *)
Definition processed_of (content : string) : string :=
  get (processed_content (process_content
         (mkState None None (Some content) None None None))) "".

(** The value a key holds after a merge in which the update supplies [new],
    by the key's strategy. *)
Definition combine (s : strategy) (old : option value) (new : value) : value :=
  match s, new with
  | Append, VList l =>
      VList (match old with Some (VList l0) => l0 | _ => [] end ++ l)%list
  | _, _ => new
  end.

(** The two messages of [validate_input] and the input of the example run. *)
Definition msg_empty : string := "Input content is empty or invalid".
Definition msg_too_long : string := "Input content is too long (max 1000 characters)".
Definition test_content : string := "hello world this is a test message".



(** The last character of [String d s], that is of [s], or [d] when [s] is
    empty. *)
Fixpoint lastd (d : ascii) (s : string) : ascii :=
  match s with
  | EmptyString => d
  | String c r => lastd c r
  end.

(** The input is accepted by [validate_input]: not blank, at most 1000
    characters as given. *)
Definition accepted (c : string) : bool :=
  negb (all_space c) && (String.length c <=? 1000)%nat.

(** * Properties *)

(** ** The string primitives on small inputs *)

Example strip_ex : Py.strip "  a b  " = "a b".
Proof. reflexivity. Qed.
Example replace_ex : Py.replace "a   b  c" "  " " " = "a  b c".
Proof. reflexivity. Qed.
Example replace_ex2 : Py.replace "abcabcab" "abc" "x" = "xxab".
Proof. reflexivity. Qed.
Example cap_ex : Py.capitalize "hELLO wORLD" = "Hello world".
Proof. reflexivity. Qed.
Example str_ex : Py.str 1001 = "1001" /\ Py.str 0 = "0".
Proof. split; reflexivity. Qed.
Example ends_ex : Py.endswith "abc." "." = true /\ Py.endswith "abc" "." = false.
Proof. split; reflexivity. Qed.

(** ** Strings *)

Section StringFacts.

Lemma lstrip_all_space s : all_space s = true -> Py.lstrip s = "".
Proof.
  induction s as [|c r IH]; simpl; [reflexivity|].
  intros H; apply andb_prop in H as [Hc Hr].
  rewrite Hc; auto.
Qed.

Lemma rstrip_all_space s : all_space s = true -> Py.rstrip s = "".
Proof.
  induction s as [|c r IH]; simpl; [reflexivity|].
  intros H; apply andb_prop in H as [Hc Hr].
  rewrite (IH Hr), Hc; reflexivity.
Qed.

Lemma strip_all_space s : all_space s = true -> Py.strip s = "".
Proof.
  intros H; unfold Py.strip; rewrite (lstrip_all_space s H); reflexivity.
Qed.

Lemma rstrip_head_nonspace c r :
  Py.isspace c = false -> Py.rstrip (String c r) <> "".
Proof.
  intros Hc; simpl; destruct (Py.rstrip r); [rewrite Hc|]; discriminate.
Qed.

Lemma lstrip_not_all_space s :
  all_space s = false ->
  exists c r, Py.lstrip s = String c r /\ Py.isspace c = false.
Proof.
  induction s as [|c r IH]; simpl; [discriminate|].
  destruct (Py.isspace c) eqn:Hc; simpl; intros H.
  - apply IH, H.
  - exists c, r; auto.
Qed.

Lemma strip_not_all_space s : all_space s = false -> Py.strip s <> "".
Proof.
  intros H; destruct (lstrip_not_all_space s H) as (c & r & E & Hc).
  unfold Py.strip; rewrite E; apply rstrip_head_nonspace, Hc.
Qed.

Lemma strip_empty_iff s : Py.strip s = "" <-> all_space s = true.
Proof.
  split; [|apply strip_all_space].
  destruct (all_space s) eqn:H; [reflexivity|].
  intros E; exfalso; exact (strip_not_all_space s H E).
Qed.

Lemma length_zero_iff (s : string) : (String.length s =? 0)%nat = true <-> s = "".
Proof.
  destruct s; simpl; split; intros H; try reflexivity; discriminate.
Qed.

Lemma rstrip_length s : String.length (Py.rstrip s) <= String.length s.
Proof.
  induction s as [|c r IH]; simpl; [lia|].
  destruct (Py.rstrip r) eqn:E; simpl in *.
  - destruct (Py.isspace c); simpl; lia.
  - lia.
Qed.

Lemma lstrip_length s : String.length (Py.lstrip s) <= String.length s.
Proof.
  induction s as [|c r IH]; simpl; [lia|].
  destruct (Py.isspace c); simpl; lia.
Qed.

Lemma rstrip_fixed_or_shorter s :
  Py.rstrip s = s \/ String.length (Py.rstrip s) < String.length s.
Proof.
  induction s as [|c r IH]; simpl; [left; reflexivity|].
  destruct IH as [E|L].
  - rewrite E. destruct r; [|left; reflexivity].
    destruct (Py.isspace c); [right; simpl; lia | left; reflexivity].
  - right. destruct (Py.rstrip r); [destruct (Py.isspace c)|]; simpl in *; lia.
Qed.

Lemma lstrip_fixed_or_shorter s :
  Py.lstrip s = s \/ String.length (Py.lstrip s) < String.length s.
Proof.
  destruct s as [|c r]; simpl; [left; reflexivity|].
  destruct (Py.isspace c); [right|left; reflexivity].
  pose proof (lstrip_length r); lia.
Qed.

Lemma strip_fixed_or_shorter s :
  Py.strip s = s \/ String.length (Py.strip s) < String.length s.
Proof.
  unfold Py.strip.
  destruct (lstrip_fixed_or_shorter s) as [E|L].
  - rewrite E; apply rstrip_fixed_or_shorter.
  - right; pose proof (rstrip_length (Py.lstrip s)); lia.
Qed.

End StringFacts.

(** ** The summary template and its [.strip()] *)

Section Summary.

Lemma rstrip_app_tail a b b' :
  Py.rstrip b = b' -> b' <> "" -> Py.rstrip (a ++ b) = a ++ b'.
Proof.
  intros E N; induction a as [|c a IH]; simpl; [exact E|].
  rewrite IH. destruct (a ++ b') eqn:Eab; [|reflexivity].
  destruct a; simpl in Eab; [contradiction|discriminate].
Qed.

Lemma app_nonempty_r (a b : string) : b <> "" -> a ++ b <> "".
Proof. destruct a; simpl; [auto|discriminate]. Qed.

Lemma rstrip_no_space_app d w :
  no_space d = true -> all_space w = true -> Py.rstrip (d ++ w) = d.
Proof.
  intros Hd Hw; induction d as [|c d IH]; simpl.
  - apply rstrip_all_space, Hw.
  - simpl in Hd; apply andb_prop in Hd as [Hc Hd'].
    rewrite (IH Hd'). apply negb_true_iff in Hc.
    destruct d; [rewrite Hc|]; reflexivity.
Qed.

Lemma digits_no_space d : no_space (NilEmpty.string_of_uint d) = true.
Proof. induction d; simpl; auto. Qed.

Lemma str_no_space n : no_space (Py.str n) = true.
Proof.
  unfold Py.str, NilZero.string_of_uint.
  destruct (Nat.to_uint n); try reflexivity; apply digits_no_space.
Qed.

Lemma str_nonempty n : Py.str n <> "".
Proof.
  unfold Py.str, NilZero.string_of_uint.
  destruct (Nat.to_uint n); discriminate.
Qed.

Lemma strip_summary_template p a b k :
  Py.strip (summary_template p a b k) = summary p a b k.
Proof.
  unfold Py.strip, summary_template, summary.
  change (Py.lstrip (nl ++ ?x)) with x.
  assert (T : Py.rstrip (Py.str k ++ nl ++ "        ") = Py.str k)
    by (apply rstrip_no_space_app; [apply str_no_space | reflexivity]).
  repeat (apply rstrip_app_tail; [|repeat apply app_nonempty_r; apply str_nonempty]).
  exact T.
Qed.

End Summary.

(** ** Replacing double spaces, capitalizing, closing with a full stop *)

Section Normalization.

Lemma prefix_cons a s1 b s2 :
  prefix (String a s1) (String b s2) = Ascii.eqb a b && prefix s1 s2.
Proof.
  simpl. destruct (ascii_dec a b) as [->|N].
  - rewrite Ascii.eqb_refl; reflexivity.
  - apply Ascii.eqb_neq in N; rewrite N; reflexivity.
Qed.

Lemma prefix_space_starts s : prefix " " s = starts_space s.
Proof.
  destruct s as [|c r]; [reflexivity|].
  rewrite prefix_cons, Ascii.eqb_sym. simpl. destruct r; apply andb_true_r.
Qed.

Lemma contains_double_cons c t :
  Py.contains "  " (String c t) =
  (Ascii.eqb c " " && starts_space t) || Py.contains "  " t.
Proof.
  cbn [Py.contains]. rewrite prefix_cons, prefix_space_starts, Ascii.eqb_sym.
  reflexivity.
Qed.

Lemma contains_triple_cons c t :
  Py.contains "   " (String c t) =
  (Ascii.eqb c " " && (starts_space t && starts_space (tail t)))
  || Py.contains "   " t.
Proof.
  cbn [Py.contains]. rewrite (Ascii.eqb_sym c). f_equal.
  rewrite prefix_cons. f_equal.
  destruct t as [|c' t']; [reflexivity|].
  rewrite prefix_cons, prefix_space_starts, Ascii.eqb_sym. reflexivity.
Qed.

Lemma replace_pair t :
  Py.replace (String " " (String " " t)) "  " " " =
  String " " (Py.replace t "  " " ").
Proof.
  unfold Py.replace. cbn [Py.replace_from].
  rewrite !prefix_cons. simpl. destruct t; reflexivity.
Qed.

Lemma replace_other c t :
  Ascii.eqb c " " && starts_space t = false ->
  Py.replace (String c t) "  " " " = String c (Py.replace t "  " " ").
Proof.
  intros H. unfold Py.replace. cbn [Py.replace_from].
  rewrite prefix_cons, prefix_space_starts, Ascii.eqb_sym, H. reflexivity.
Qed.

Lemma replace_starts s :
  starts_space (Py.replace s "  " " ") = starts_space s.
Proof.
  destruct s as [|c t]; [reflexivity|].
  destruct (Ascii.eqb c " " && starts_space t) eqn:E.
  - apply andb_prop in E as [Ec Et]. apply Ascii.eqb_eq in Ec; subst c.
    destruct t as [|c' t']; [discriminate|].
    simpl in Et; apply Ascii.eqb_eq in Et; subst c'.
    rewrite replace_pair; reflexivity.
  - rewrite (replace_other _ _ E); reflexivity.
Qed.

Lemma replace_no_double_bounded n : forall s,
  String.length s <= n ->
  Py.contains "   " s = false ->
  Py.contains "  " (Py.replace s "  " " ") = false.
Proof.
  induction n as [|n IH]; intros s L H.
  - destruct s; [reflexivity | simpl in L; lia].
  - destruct s as [|c t]; [reflexivity|].
    rewrite contains_triple_cons in H. apply orb_false_elim in H as [H3 Ht].
    simpl in L.
    destruct (Ascii.eqb c " " && starts_space t) eqn:E.
    + apply andb_prop in E as [Ec Et]. apply Ascii.eqb_eq in Ec; subst c.
      destruct t as [|c' t']; [discriminate|].
      simpl in Et; apply Ascii.eqb_eq in Et; subst c'.
      rewrite replace_pair, contains_double_cons, replace_starts.
      simpl in H3. rewrite H3. simpl.
      rewrite contains_triple_cons in Ht. apply orb_false_elim in Ht as [_ Ht'].
      apply IH; [simpl in L; lia | exact Ht'].
    + rewrite (replace_other _ _ E), contains_double_cons, replace_starts, E.
      simpl. apply IH; [lia | exact Ht].
Qed.

Lemma replace_no_double s :
  Py.contains "   " s = false ->
  Py.contains "  " (Py.replace s "  " " ") = false.
Proof. apply (replace_no_double_bounded (String.length s)); lia. Qed.

Lemma upper_char_space c : Ascii.eqb (Py.upper_char c) " " = Ascii.eqb c " ".
Proof. destruct c as [[] [] [] [] [] [] [] []]; reflexivity. Qed.

Lemma lower_char_space c : Ascii.eqb (Py.lower_char c) " " = Ascii.eqb c " ".
Proof. destruct c as [[] [] [] [] [] [] [] []]; reflexivity. Qed.

Lemma upper_char_idem c : Py.upper_char (Py.upper_char c) = Py.upper_char c.
Proof. destruct c as [[] [] [] [] [] [] [] []]; reflexivity. Qed.

Lemma lower_char_idem c : Py.lower_char (Py.lower_char c) = Py.lower_char c.
Proof. destruct c as [[] [] [] [] [] [] [] []]; reflexivity. Qed.

Lemma lower_starts s : starts_space (Py.lower s) = starts_space s.
Proof. destruct s; [reflexivity | apply lower_char_space]. Qed.

Lemma lower_contains_double s :
  Py.contains "  " (Py.lower s) = Py.contains "  " s.
Proof.
  induction s as [|c t IH]; [reflexivity|].
  cbn [Py.lower]. rewrite !contains_double_cons, lower_char_space, lower_starts, IH.
  reflexivity.
Qed.

Lemma capitalize_contains_double s :
  Py.contains "  " (Py.capitalize s) = Py.contains "  " s.
Proof.
  destruct s as [|c t]; [reflexivity|].
  cbn [Py.capitalize].
  rewrite !contains_double_cons, upper_char_space, lower_starts, lower_contains_double.
  reflexivity.
Qed.

Lemma app_dot_starts s : starts_space (s ++ ".") = starts_space s.
Proof. destruct s; reflexivity. Qed.

Lemma app_dot_contains_double s :
  Py.contains "  " (s ++ ".") = Py.contains "  " s.
Proof.
  induction s as [|c t IH]; [reflexivity|].
  change (String c t ++ ".") with (String c (t ++ ".")).
  rewrite !contains_double_cons, app_dot_starts, IH. reflexivity.
Qed.

Lemma lower_idem s : Py.lower (Py.lower s) = Py.lower s.
Proof.
  induction s as [|c t IH]; [reflexivity|].
  simpl; rewrite lower_char_idem, IH; reflexivity.
Qed.

Lemma lower_app_dot s : Py.lower (s ++ ".") = Py.lower s ++ ".".
Proof. induction s as [|c t IH]; [reflexivity | simpl; rewrite IH; reflexivity]. Qed.

Lemma capitalize_idem s : Py.capitalize (Py.capitalize s) = Py.capitalize s.
Proof.
  destruct s as [|c t]; [reflexivity|].
  simpl; rewrite upper_char_idem, lower_idem; reflexivity.
Qed.

Lemma capitalize_app_dot s :
  Py.capitalize (Py.capitalize s ++ ".") = Py.capitalize s ++ ".".
Proof.
  destruct s as [|c t]; [reflexivity|].
  simpl; rewrite upper_char_idem, lower_app_dot, lower_idem; reflexivity.
Qed.

Lemma endswith_app_dot s : Py.endswith (s ++ ".") "." = true.
Proof.
  induction s as [|c t IH]; [reflexivity|].
  change (String c t ++ ".") with (String c (t ++ ".")).
  cbn [Py.endswith]. rewrite IH. apply orb_true_r.
Qed.

End Normalization.

(** ** The executor: relation and function agree *)

Section Executor.

Variable g : StateGraph.
Variable max_steps : nat.

Lemma finished_is_final o r : ~ step g max_steps (Finished o) r.
Proof. intros H; inversion H. Qed.

Lemma step_deterministic r r1 r2 :
  step g max_steps r r1 -> step g max_steps r r2 -> r1 = r2.
Proof.
  intros H1 H2; inversion H1; subst; inversion H2; subst;
    try reflexivity; try lia; try congruence.
Qed.

Lemma runs_deterministic r o1 o2 :
  runs g max_steps r o1 -> runs g max_steps r o2 -> o1 = o2.
Proof.
  unfold runs; intros H1. remember (Finished o1) as fin eqn:Efin.
  revert o2; induction H1 as [x | x y z Hxy Hyz IH]; intros o2 H2.
  - subst x. inversion H2 as [E | y z Hstep Hrest E1]; subst.
    + reflexivity.
    + exfalso; exact (finished_is_final _ _ Hstep).
  - inversion H2 as [E | y' z' Hstep Hrest E1]; subst.
    + exfalso; exact (finished_is_final _ _ Hxy).
    + rewrite <- (step_deterministic _ _ _ Hxy Hstep) in Hrest.
      exact (IH eq_refl _ Hrest).
Qed.

Lemma exec_runs fuel : forall n name st,
  n + fuel = max_steps ->
  runs g max_steps (Running name st n) (exec g fuel name st).
Proof.
  unfold runs; induction fuel as [|fuel IH]; intros n name st E; simpl.
  - eapply rt1n_trans; [apply step_limit; lia | apply rt1n_refl].
  - destruct (assoc name (nodes g)) as [node|] eqn:En.
    + destruct (next g name (merge st (node st))) as [why|d] eqn:Ed.
      * eapply rt1n_trans; [eapply step_failed; eauto; lia | apply rt1n_refl].
      * destruct (String.eqb_spec d END) as [->|Nd].
        -- eapply rt1n_trans; [eapply step_end; eauto; lia | apply rt1n_refl].
        -- eapply rt1n_trans; [eapply step_next; eauto; lia | apply IH; lia].
    + eapply rt1n_trans; [apply step_unknown; auto; lia | apply rt1n_refl].
Qed.

Lemma exec_step fuel name st node :
  assoc name (nodes g) = Some node ->
  exec g (S fuel) name st =
  match next g name (merge st (node st)) with
  | inl why => Failed why (merge st (node st))
  | inr d =>
      if String.eqb d END then Completed (merge st (node st))
      else exec g fuel d (merge st (node st))
  end.
Proof. intros E; simpl; rewrite E; reflexivity. Qed.

End Executor.

Lemma invoke_runs g init :
  runs g max_steps_default (start g init) (invoke g init).
Proof. apply exec_runs; reflexivity. Qed.

(** ** The two paths through the workflow *)

Section Paths.

Lemma next_after_validate st :
  next _create_workflow "validate_input" st =
  inr (if match error st with Some e => Py.truthy e | None => false end
       then "handle_error" else "process_content").
Proof.
  unfold next; simpl; unfold should_process.
  destruct (match error st with Some e => Py.truthy e | None => false end);
    reflexivity.
Qed.

Lemma run_error_path c e :
  validate_input (initial_state c) =
    mkState None (Some "validate_input") None None None (Some e) ->
  Py.truthy e = true ->
  run c = Completed
    (mkState (Some ["Error handled: " ++ e]) (Some "handle_error")
             (Some c) (Some "") (Some ("❌ Error: " ++ e)) (Some e)).
Proof.
  intros Hv He. unfold run, invoke, max_steps_default.
  change (merge no_update (initial_state c)) with (initial_state c).
  change (entry_point _create_workflow) with "validate_input".
  rewrite (exec_step _create_workflow _ "validate_input" _ validate_input eq_refl), Hv.
  rewrite next_after_validate. cbn [merge replace_field append_field error
    messages current_step content processed_content final_result initial_state].
  rewrite He. cbn [String.eqb Ascii.eqb Bool.eqb END].
  rewrite (exec_step _create_workflow _ "handle_error" _ handle_error eq_refl).
  reflexivity.
Qed.

Lemma validate_input_success st c :
  content st = Some c ->
  all_space c = false ->
  String.length c <= 1000 ->
  validate_input st =
    mkState (Some ["Input validated: " ++ Py.str (String.length c) ++ " characters"])
            (Some "validate_input") (Some (Py.strip c)) None None (Some "").
Proof.
  intros Hc Hs Hl. unfold validate_input. rewrite Hc. cbn [get].
  assert (T : Py.truthy c = true) by (destruct c; [discriminate | reflexivity]).
  assert (Z : (String.length (Py.strip c) =? 0)%nat = false).
  { destruct (String.length (Py.strip c) =? 0)%nat eqn:E; [|reflexivity].
    apply length_zero_iff in E. exfalso; exact (strip_not_all_space c Hs E). }
  rewrite T, Z. cbn [negb orb].
  assert (L : (1000 <? String.length c)%nat = false) by (apply Nat.ltb_ge; exact Hl).
  rewrite L. reflexivity.
Qed.

Lemma process_content_eq st :
  process_content st =
    mkState (Some ["Content processed: " ++
                     Py.str (String.length (processed_of (get (content st) ""))) ++
                     " characters"])
            (Some "process_content") None
            (Some (processed_of (get (content st) ""))) None (Some "").
Proof. reflexivity. Qed.

Lemma format_output_eq st :
  format_output st =
    mkState (Some ["Output formatted successfully"]) (Some "format_output")
            None None
            (Some (summary (get (processed_content st) "")
                           (String.length (get (content st) ""))
                           (String.length (get (processed_content st) ""))
                           (List.length (get (messages st) []))))
            (Some "").
Proof. unfold format_output. rewrite strip_summary_template. reflexivity. Qed.

Lemma run_success_path c :
  all_space c = false ->
  String.length c <= 1000 ->
  run c = Completed
    (mkState (Some ["Input validated: " ++ Py.str (String.length c) ++ " characters";
                    "Content processed: " ++
                      Py.str (String.length (processed_of (Py.strip c))) ++ " characters";
                    "Output formatted successfully"])
             (Some "format_output")
             (Some (Py.strip c))
             (Some (processed_of (Py.strip c)))
             (Some (summary (processed_of (Py.strip c))
                            (String.length (Py.strip c))
                            (String.length (processed_of (Py.strip c))) 2))
             (Some "")).
Proof.
  intros Hs Hl. unfold run, invoke, max_steps_default.
  change (merge no_update (initial_state c)) with (initial_state c).
  change (entry_point _create_workflow) with "validate_input".
  rewrite (exec_step _create_workflow _ "validate_input" _ validate_input eq_refl).
  rewrite (validate_input_success (initial_state c) c eq_refl Hs Hl).
  rewrite next_after_validate.
  cbn [merge replace_field append_field error get app
    messages current_step content processed_content final_result initial_state].
  cbn [Py.truthy String.eqb Ascii.eqb Bool.eqb END].
  rewrite (exec_step _create_workflow _ "process_content" _ process_content eq_refl).
  rewrite process_content_eq.
  cbn [merge replace_field append_field error get app
    messages current_step content processed_content final_result].
  change (next _create_workflow "process_content" ?s) with (@inr cause string "format_output").
  cbn [String.eqb Ascii.eqb Bool.eqb END].
  rewrite (exec_step _create_workflow _ "format_output" _ format_output eq_refl).
  rewrite format_output_eq.
  reflexivity.
Qed.

End Paths.

(** ** Scenario 1: the example input *)

(** C1, as stated, fails: the example input has 34 characters, not 35, and
    the summary of its run nowhere says "Original length: 35". *)
Lemma test_content_original_length_not_35 :
  String.length test_content = 34 /\
  ~ (exists st r,
       run test_content = Completed st /\
       final_result st = Some r /\
       Py.contains "Original length: 35" r = true).
Proof.
  split; [reflexivity|].
  intros (st & r & Hrun & Hres & Hin).
  vm_compute in Hrun. injection Hrun as <-.
  simpl in Hres. injection Hres as <-.
  vm_compute in Hin. discriminate.
Qed.

(** C1 (amended): for the input "hello world this is a test message" the
    run completes with an empty error field; validation passes; the
    processed content is "Hello world this is a test message.", which is
    capitalized, single-spaced and ends in a full stop; and the final result
    is the formatted summary, which reports original length 34 and
    processed length 35. *)
Theorem run_test_content :
  exists st p r,
    run test_content = Completed st /\
    error (validate_input (initial_state test_content)) = Some "" /\
    error st = Some "" /\
    processed_content st = Some p /\
    p = "Hello world this is a test message." /\
    Py.capitalize p = p /\ single_spaced p = true /\ Py.endswith p "." = true /\
    final_result st = Some r /\
    r = summary p 34 35 2 /\
    Py.contains "- Original length: 34 characters" r = true /\
    Py.contains "- Processed length: 35 characters" r = true /\
    String.length test_content = 34 /\ String.length p = 35.
Proof.
  eexists; eexists; eexists.
  split; [vm_compute; reflexivity|].
  repeat split; vm_compute; reflexivity.
Qed.

(** ** Scenarios 2 and 3: rejected input *)

(** C2, as stated, fails: an input of 1001 spaces has length 1001, yet
    validation reports it as empty, not as too long. *)
Lemma blank_1001_not_too_long :
  String.length (Py.mul " " 1001) = 1001 /\
  error (validate_input (initial_state (Py.mul " " 1001))) <> Some msg_too_long.
Proof. split; [reflexivity | vm_compute; discriminate]. Qed.

Lemma validate_input_too_long st c :
  content st = Some c ->
  all_space c = false ->
  1000 < String.length c ->
  validate_input st =
    mkState None (Some "validate_input") None None None (Some msg_too_long).
Proof.
  intros Hc Hs Hl. unfold validate_input. rewrite Hc. cbn [get].
  assert (T : Py.truthy c = true) by (destruct c; [discriminate | reflexivity]).
  assert (Z : (String.length (Py.strip c) =? 0)%nat = false).
  { destruct (String.length (Py.strip c) =? 0)%nat eqn:E; [|reflexivity].
    apply length_zero_iff in E. exfalso; exact (strip_not_all_space c Hs E). }
  rewrite T, Z. cbn [negb orb].
  assert (L : (1000 <? String.length c)%nat = true) by (apply Nat.ltb_lt; exact Hl).
  rewrite L. reflexivity.
Qed.

Lemma prefix_app y b : prefix y (y ++ b) = true.
Proof.
  induction y as [|c y IH]; [destruct b; reflexivity|].
  change (String c y ++ b) with (String c (y ++ b)).
  rewrite prefix_cons, Ascii.eqb_refl; exact IH.
Qed.

Lemma contains_app_r x b : Py.contains x (x ++ b) = true.
Proof.
  destruct x as [|a x]; [destruct b; reflexivity|].
  change (String a x ++ b) with (String a (x ++ b)). cbn [Py.contains].
  apply orb_true_iff; left. apply (prefix_app (String a x)).
Qed.

Lemma append_assoc (a b c : string) : (a ++ b) ++ c = a ++ b ++ c.
Proof. induction a as [|x a IH]; [reflexivity | simpl; rewrite IH; reflexivity]. Qed.

Lemma contains_app3 a b c rest :
  Py.contains (a ++ b ++ c) (a ++ b ++ c ++ rest) = true.
Proof.
  replace (a ++ b ++ c ++ rest) with ((a ++ b ++ c) ++ rest)
    by (rewrite !append_assoc; reflexivity).
  apply contains_app_r.
Qed.

Lemma contains_app_l a x s : Py.contains x s = true -> Py.contains x (a ++ s) = true.
Proof.
  intros H; induction a as [|c a IH]; [exact H|].
  change (String c a ++ s) with (String c (a ++ s)).
  cbn [Py.contains]. rewrite IH. apply orb_true_r.
Qed.

(** C2 (amended): for the empty input validation sets the error field to
    "Input content is empty or invalid"; for every input of length 1001
    that is not made of whitespace only it sets it to "Input content is too
    long (max 1000 characters)".  In both cases the router answers "error",
    the error-handling node writes the formatted error, which contains that
    message, into the final result, and the run is Completed. *)
Theorem validation_errors_are_routed :
  (error (validate_input (initial_state "")) = Some msg_empty /\
   exists st,
     run "" = Completed st /\ current_step st = Some "handle_error" /\
     error st = Some msg_empty /\
     final_result st = Some ("❌ Error: " ++ msg_empty)) /\
  (forall c,
     String.length c = 1001 -> all_space c = false ->
     error (validate_input (initial_state c)) = Some msg_too_long /\
     should_process (merge (initial_state c) (validate_input (initial_state c)))
       = "error" /\
     next _create_workflow "validate_input"
       (merge (initial_state c) (validate_input (initial_state c)))
       = inr "handle_error" /\
     exists st,
       run c = Completed st /\ current_step st = Some "handle_error" /\
       error st = Some msg_too_long /\
       final_result st = Some ("❌ Error: " ++ msg_too_long) /\
       Py.contains msg_too_long ("❌ Error: " ++ msg_too_long) = true) /\
  Py.contains msg_empty ("❌ Error: " ++ msg_empty) = true.
Proof.
  split; [|split].
  - split; [reflexivity|]. eexists. split; [vm_compute; reflexivity|].
    repeat split.
  - intros c Hl Hs.
    assert (V := validate_input_too_long (initial_state c) c eq_refl Hs
                   ltac:(rewrite Hl; lia)).
    rewrite V. repeat split.
    eexists. split; [apply (run_error_path c msg_too_long V); reflexivity|].
    repeat split.
  - reflexivity.
Qed.

Lemma validation_errors_are_routed_witness :
  String.length (Py.mul "a" 1001) = 1001 /\
  all_space (Py.mul "a" 1001) = false /\
  error (validate_input (initial_state (Py.mul "a" 1001))) = Some msg_too_long.
Proof.
  split; [reflexivity|]. split; [reflexivity|].
  apply (proj1 (proj2 validation_errors_are_routed) (Py.mul "a" 1001));
    reflexivity.
Defined.

(** ** Routing *)

(** C3: in every state whose error field is empty (the empty string, or
    absent) the validation router answers "process" and the next node is
    [process_content]; in every state whose error field is a non-empty
    string it answers "error" and the next node is [handle_error].  In
    particular so for the error fields "" and "x". *)
Theorem routing_correctness :
  (forall st,
     get (error st) "" = "" ->
     should_process st = "process" /\
     next _create_workflow "validate_input" st = inr "process_content") /\
  (forall st e,
     error st = Some e -> e <> "" ->
     should_process st = "error" /\
     next _create_workflow "validate_input" st = inr "handle_error") /\
  (forall m s c p r,
     should_process (mkState m s c p r (Some "")) = "process" /\
     should_process (mkState m s c p r (Some "x")) = "error").
Proof.
  split; [|split].
  - intros st H. rewrite next_after_validate. unfold should_process.
    destruct (error st) as [e|]; simpl in H; [subst e|]; split; reflexivity.
  - intros st e H N. rewrite next_after_validate. unfold should_process.
    rewrite H. destruct e; [contradiction|]. split; reflexivity.
  - intros; split; reflexivity.
Qed.

Lemma routing_correctness_witness :
  should_process (initial_state "hi") = "process" /\
  should_process (mkState None None None None None (Some "x")) = "error".
Proof.
  split.
  - apply (proj1 routing_correctness (initial_state "hi")); reflexivity.
  - apply (proj1 (proj2 routing_correctness)
             (mkState None None None None None (Some "x")) "x");
      [reflexivity | discriminate].
Defined.

(** ** The transformation node *)


Lemma processed_of_eq c :
  processed_of c =
  let p := Py.capitalize (Py.replace (Py.strip c) "  " " ") in
  if negb (Py.endswith p ".") then p ++ "." else p.
Proof. reflexivity. Qed.







(** ** Merge *)

(** C5: a key that the update does not hold keeps its value in the merged
    state; every key that the update holds takes its new value in that same
    merged state, by the key's strategy, so the update is applied as a
    whole; and on the failure branches of the validation node, which return
    only current_step and error, the content, messages, processed_content
    and final_result keys are unchanged. *)
Theorem merge_frame :
  (forall s u f, lookup f u = None -> lookup f (merge s u) = lookup f s) /\
  (forall s u f v,
     lookup f u = Some v ->
     lookup f (merge s u) = Some (combine (strategy_of f) (lookup f s) v)) /\
  (forall st,
     error (validate_input st) <> Some "" ->
     let st' := merge st (validate_input st) in
     content st' = content st /\ messages st' = messages st /\
     processed_content st' = processed_content st /\
     final_result st' = final_result st).
Proof.
  split; [|split].
  - intros s u [] H; simpl in *;
      match goal with
      | H : option_map _ ?x = None |- _ => destruct x; [discriminate|reflexivity]
      end.
  - intros s u [] v H; simpl in *;
      match goal with
      | H : option_map _ ?x = Some _ |- _ =>
          destruct x; [injection H as <- | discriminate]
      end; simpl; try reflexivity.
    destruct (messages s); reflexivity.
  - intros st H st'. subst st'. unfold validate_input in *.
    destruct (negb (Py.truthy (get (content st) "")) ||
              (String.length (Py.strip (get (content st) "")) =? 0)%nat);
      [repeat split|].
    destruct (1000 <? String.length (get (content st) ""))%nat;
      [repeat split|].
    simpl in H. contradiction.
Qed.

Lemma merge_frame_witness :
  lookup F_content (validate_input (initial_state "")) = None /\
  lookup F_content (merge (initial_state "") (validate_input (initial_state "")))
    = Some (VStr "").
Proof.
  split; [reflexivity|].
  rewrite (proj1 merge_frame (initial_state "") (validate_input (initial_state ""))
             F_content); reflexivity.
Defined.

(** C7: merging U1 and then U2, both holding messages, gives the same
    messages as merging one update whose messages are those of U1 followed
    by those of U2: the earlier messages, then U1's, then U2's, in that
    order and with nothing removed. *)
Theorem merge_append_assoc s u1 u2 u12 m1 m2 :
  messages u1 = Some m1 ->
  messages u2 = Some m2 ->
  messages u12 = Some (m1 ++ m2)%list ->
  messages (merge (merge s u1) u2) = messages (merge s u12) /\
  messages (merge (merge s u1) u2) =
    Some (List.app (get (messages s) []) (List.app m1 m2)) /\
  List.length (get (messages (merge (merge s u1) u2)) []) =
    List.length (get (messages s) []) + List.length m1 + List.length m2.
Proof.
  intros H1 H2 H12. unfold merge; simpl. rewrite H1, H2, H12. simpl.
  rewrite <- List.app_assoc. repeat split.
  rewrite !List.length_app. lia.
Qed.

Lemma merge_append_assoc_witness :
  messages (merge (merge (initial_state "")
                     (mkState (Some ["a"; "b"]) None None None None None))
              (mkState (Some ["b"; "a"]) None None None None None))
  = Some ["a"; "b"; "b"; "a"].
Proof.
  rewrite (proj1 (merge_append_assoc (initial_state "")
             (mkState (Some ["a"; "b"]) None None None None None)
             (mkState (Some ["b"; "a"]) None None None None None)
             (mkState (Some ["a"; "b"; "b"; "a"]) None None None None None)
             ["a"; "b"] ["b"; "a"] eq_refl eq_refl eq_refl)).
  reflexivity.
Defined.

(** ** The error-handling node *)

(** C8, as stated, fails: with the error field present and empty there is
    no fallback; the formatted message is built from the empty string. *)
Lemma empty_error_has_no_fallback :
  error (initial_state "") = Some "" /\
  final_result (handle_error (initial_state "")) = Some "❌ Error: " /\
  messages (handle_error (initial_state "")) = Some ["Error handled: "] /\
  Py.contains "Unknown error occurred"
    (get (final_result (handle_error (initial_state ""))) "") = false.
Proof. repeat split. Qed.

(** C8 (amended): the error-handling node falls back to "Unknown error
    occurred" for every state in which the error key is absent; for every
    state in which it is present, the empty string included, the node uses
    its value as it is.  In both cases it writes the formatted message into
    the final result and appends one log entry saying the error was
    handled. *)
Theorem handle_error_effect st :
  (error st = None ->
   final_result (handle_error st) = Some "❌ Error: Unknown error occurred" /\
   messages (handle_error st) = Some ["Error handled: Unknown error occurred"]) /\
  (forall e,
     error st = Some e ->
     final_result (handle_error st) = Some ("❌ Error: " ++ e) /\
     messages (handle_error st) = Some ["Error handled: " ++ e] /\
     error (handle_error st) = Some e) /\
  (exists entry,
     messages (handle_error st) = Some [entry] /\
     messages (merge st (handle_error st)) =
       Some (List.app (get (messages st) []) [entry]) /\
     prefix "Error handled: " entry = true).
Proof.
  unfold handle_error. split; [|split].
  - intros H; rewrite H; split; reflexivity.
  - intros e H; rewrite H; repeat split.
  - eexists; repeat split. apply prefix_app.
Qed.

Lemma handle_error_effect_witness :
  final_result (handle_error no_update) = Some "❌ Error: Unknown error occurred" /\
  final_result (handle_error (initial_state "")) = Some "❌ Error: ".
Proof.
  split.
  - apply (proj1 (handle_error_effect no_update)); reflexivity.
  - apply (proj1 (proj2 (handle_error_effect (initial_state ""))) "");
      reflexivity.
Defined.

(** ** Validation *)

(** C9: for every input made of whitespace only (any of the characters
    that [strip] removes: the ASCII ones, NEL and the no-break space),
    whatever its length, the validation node returns the "Input content is empty or invalid" error
    and no other key but current_step; it never returns the too-long
    error for such an input. *)
Theorem blank_input_is_empty_error st c :
  content st = Some c ->
  c <> "" ->
  all_space c = true ->
  validate_input st =
    mkState None (Some "validate_input") None None None (Some msg_empty) /\
  error (validate_input st) <> Some msg_too_long.
Proof.
  intros Hc _ Hs.
  assert (V : validate_input st =
              mkState None (Some "validate_input") None None None (Some msg_empty)).
  { unfold validate_input. rewrite Hc. cbn [get].
    rewrite (strip_all_space c Hs). cbn [String.length Nat.eqb].
    rewrite orb_true_r. reflexivity. }
  rewrite V. split; [reflexivity | discriminate].
Qed.

Lemma blank_input_is_empty_error_witness :
  1000 < String.length (Py.mul " " 1001) /\
  error (validate_input (initial_state (Py.mul " " 1001))) = Some msg_empty /\
  error (validate_input
           (initial_state (String (ascii_of_nat 9) (Py.mul (ascii_of_nat 160) 1001))))
    = Some msg_empty.
Proof.
  split; [vm_compute; lia|]. split.
  - rewrite (proj1 (blank_input_is_empty_error
                      (initial_state (Py.mul " " 1001)) (Py.mul " " 1001)
                      eq_refl ltac:(discriminate) ltac:(reflexivity))).
    reflexivity.
  - rewrite (proj1 (blank_input_is_empty_error
                      (initial_state
                         (String (ascii_of_nat 9) (Py.mul (ascii_of_nat 160) 1001)))
                      (String (ascii_of_nat 9) (Py.mul (ascii_of_nat 160) 1001))
                      eq_refl ltac:(discriminate) ltac:(reflexivity))).
    reflexivity.
Defined.

(** ** The reported original length *)

Lemma str_inj n m : Py.str n = Py.str m -> n = m.
Proof.
  assert (P : forall k,
             option_map Nat.of_uint (NilZero.uint_of_string (Py.str k)) = Some k).
  { intros k. unfold Py.str. pose proof (DecimalNat.Unsigned.of_to k) as E.
    destruct (Nat.to_uint k) eqn:D;
      [simpl in E; subst k; reflexivity | ..];
      (rewrite NilZero.usu by discriminate); simpl; f_equal; exact E. }
  intros H. pose proof (P n) as Pn. rewrite H, P in Pn.
  injection Pn as ->; reflexivity.
Qed.

(** C10: on the success path the content held by the state when the
    summary is formatted is the trimmed input, and the summary's
    "Original length" figure is the length of that trimmed content; so for
    every accepted input with leading or trailing whitespace the figure is
    smaller than the length of the raw input, and is not its decimal
    form. *)
Theorem original_length_is_trimmed c :
  all_space c = false ->
  String.length c <= 1000 ->
  exists st p r,
    run c = Completed st /\
    content st = Some (Py.strip c) /\
    processed_content st = Some p /\
    final_result st = Some r /\
    r = summary p (String.length (Py.strip c)) (String.length p) 2 /\
    Py.contains
      ("- Original length: " ++ Py.str (String.length (Py.strip c)) ++ " characters")
      r = true /\
    (Py.strip c <> c ->
     String.length (Py.strip c) < String.length c /\
     Py.str (String.length (Py.strip c)) <> Py.str (String.length c)).
Proof.
  intros Hs Hl. eexists; eexists; eexists.
  split; [apply (run_success_path c Hs Hl)|].
  split; [reflexivity|]. split; [reflexivity|]. split; [reflexivity|].
  split; [reflexivity|].
  split.
  - unfold summary.
    do 7 apply contains_app_l. apply contains_app3.
  - intros N. destruct (strip_fixed_or_shorter c) as [E|L]; [contradiction|].
    split; [exact L|]. intros E. apply str_inj in E. lia.
Qed.

Lemma original_length_is_trimmed_witness :
  all_space (String (ascii_of_nat 160) " a   b  ") = false /\
  String.length (String (ascii_of_nat 160) " a   b  ") = 9 /\
  exists st,
    run (String (ascii_of_nat 160) " a   b  ") = Completed st /\
    content st = Some "a   b" /\
    Py.contains "- Original length: 5 characters" (get (final_result st) "") = true.
Proof.
  split; [reflexivity|]. split; [reflexivity|].
  destruct (original_length_is_trimmed (String (ascii_of_nat 160) " a   b  ")
              eq_refl ltac:(simpl; lia))
    as (st & p & r & Hrun & Hc & _ & Hres & _ & Hin & _).
  exists st. split; [exact Hrun|]. split; [exact Hc|]. rewrite Hres. exact Hin.
Defined.

(** * Further properties of the nodes *)

(** ** More on [strip], [replace] and [capitalize] *)

Section MoreStrings.

Lemma length_app (a b : string) :
  String.length (a ++ b) = String.length a + String.length b.
Proof. induction a as [|c a IH]; simpl; [reflexivity | rewrite IH; reflexivity]. Qed.

Lemma rstrip_cons_nonspace c r :
  Py.isspace c = false -> exists r', Py.rstrip (String c r) = String c r'.
Proof.
  intros Hc; simpl. destruct (Py.rstrip r) as [|c' r'].
  - rewrite Hc; exists ""; reflexivity.
  - exists (String c' r'); reflexivity.
Qed.

Lemma rstrip_idem s : Py.rstrip (Py.rstrip s) = Py.rstrip s.
Proof.
  induction s as [|c r IH]; [reflexivity|].
  simpl. destruct (Py.rstrip r) as [|c' r'] eqn:E.
  - destruct (Py.isspace c) eqn:Hc; [reflexivity|].
    simpl; rewrite Hc; reflexivity.
  - change (Py.rstrip (String c (String c' r')))
      with (match Py.rstrip (String c' r') with
            | "" => if Py.isspace c then "" else String c ""
            | r0 => String c r0
            end).
    rewrite IH; reflexivity.
Qed.

Lemma rstrip_decomp s :
  exists w, s = Py.rstrip s ++ w /\ all_space w = true.
Proof.
  induction s as [|c r (w & E & Hw)]; [exists ""; split; reflexivity|].
  simpl. destruct (Py.rstrip r) as [|c' r'] eqn:Er.
  - destruct (Py.isspace c) eqn:Hc.
    + exists (String c r). split; [reflexivity|].
      simpl in E; subst w. simpl; rewrite Hc; exact Hw.
    + exists w. split; [simpl in *; congruence | exact Hw].
  - exists w. split; [simpl in *; congruence | exact Hw].
Qed.

(** The shape of a trimmed string: empty, or from a non-blank character to
    a non-blank character. *)
Lemma strip_shape s :
  Py.strip s = "" \/
  exists c r, Py.strip s = String c r /\ Py.isspace c = false.
Proof.
  unfold Py.strip. destruct (all_space s) eqn:H.
  - left. rewrite (lstrip_all_space s H); reflexivity.
  - right. destruct (lstrip_not_all_space s H) as (c & r & E & Hc).
    rewrite E. destruct (rstrip_cons_nonspace c r Hc) as (r' & E').
    exists c, r'; auto.
Qed.

Lemma strip_idem s : Py.strip (Py.strip s) = Py.strip s.
Proof.
  destruct (strip_shape s) as [E | (c & r & E & Hc)].
  - rewrite E; reflexivity.
  - unfold Py.strip at 1. rewrite E. simpl Py.lstrip. rewrite Hc.
    rewrite <- E. unfold Py.strip. apply rstrip_idem.
Qed.

Lemma strip_length s : String.length (Py.strip s) <= String.length s.
Proof.
  unfold Py.strip. pose proof (rstrip_length (Py.lstrip s)).
  pose proof (lstrip_length s). lia.
Qed.

Lemma replace_length_bounded n : forall s,
  String.length s <= n ->
  String.length (Py.replace s "  " " ") <= String.length s.
Proof.
  induction n as [|n IH]; intros s L.
  - destruct s; [simpl; lia | simpl in L; lia].
  - destruct s as [|c t]; [simpl; lia|]. simpl in L.
    destruct (Ascii.eqb c " " && starts_space t) eqn:E.
    + apply andb_prop in E as [Ec Et]. apply Ascii.eqb_eq in Ec; subst c.
      destruct t as [|c' t']; [discriminate|].
      simpl in Et; apply Ascii.eqb_eq in Et; subst c'.
      rewrite replace_pair. simpl in *.
      pose proof (IH t' ltac:(lia)). lia.
    + rewrite (replace_other _ _ E). simpl.
      pose proof (IH t ltac:(lia)). lia.
Qed.

Lemma replace_length s :
  String.length (Py.replace s "  " " ") <= String.length s.
Proof. apply (replace_length_bounded (String.length s)); lia. Qed.

Lemma replace_id s :
  Py.contains "  " s = false -> Py.replace s "  " " " = s.
Proof.
  induction s as [|c t IH]; [reflexivity|].
  rewrite contains_double_cons. intros H.
  apply orb_false_elim in H as [H1 H2].
  rewrite (replace_other _ _ H1), (IH H2). reflexivity.
Qed.

Lemma lower_length s : String.length (Py.lower s) = String.length s.
Proof. induction s as [|c t IH]; simpl; [reflexivity | rewrite IH; reflexivity]. Qed.

Lemma capitalize_length s : String.length (Py.capitalize s) = String.length s.
Proof. destruct s; simpl; [reflexivity | rewrite lower_length; reflexivity]. Qed.

Lemma upper_char_isspace c : Py.isspace (Py.upper_char c) = Py.isspace c.
Proof. destruct c as [[] [] [] [] [] [] [] []]; reflexivity. Qed.

Lemma upper_char_dot c : Ascii.eqb (Py.upper_char c) "." = Ascii.eqb c ".".
Proof. destruct c as [[] [] [] [] [] [] [] []]; reflexivity. Qed.

Lemma lower_char_dot c : Ascii.eqb (Py.lower_char c) "." = Ascii.eqb c ".".
Proof. destruct c as [[] [] [] [] [] [] [] []]; reflexivity. Qed.

Lemma space_is_isspace c : Py.isspace c = false -> Ascii.eqb c " " = false.
Proof.
  intros H. destruct (Ascii.eqb_spec c " ") as [->|]; [discriminate H | reflexivity].
Qed.

Lemma endswith_dot_last s :
  Py.endswith s "." =
  match s with
  | EmptyString => false
  | String c r => Ascii.eqb (lastd c r) "."
  end.
Proof.
  destruct s as [|c r]; [reflexivity|].
  revert c; induction r as [|c' r IH]; intros c.
  - simpl. destruct (Ascii.eqb c "."); reflexivity.
  - change (Py.endswith (String c (String c' r)) ".")
      with ((String c (String c' r) =? ".")%string || Py.endswith (String c' r) ".").
    rewrite IH. cbn [lastd].
    replace (String c (String c' r) =? ".")%string with false; [reflexivity|].
    symmetry. apply String.eqb_neq. intros E; discriminate E.
Qed.

Lemma endswith_split s suffix :
  Py.endswith s suffix = true -> exists a, s = a ++ suffix.
Proof.
  induction s as [|c r IH]; cbn [Py.endswith]; intros H.
  - rewrite orb_false_r in H. apply String.eqb_eq in H. exists ""; exact H.
  - apply orb_prop in H as [H|H].
    + apply String.eqb_eq in H. exists ""; exact H.
    + destruct (IH H) as (a & E). exists (String c a). simpl; congruence.
Qed.

Lemma endswith_app a suffix : Py.endswith (a ++ suffix) suffix = true.
Proof.
  induction a as [|c a IH].
  - destruct suffix; simpl; [reflexivity|].
    rewrite Ascii.eqb_refl, String.eqb_refl; reflexivity.
  - change (String c a ++ suffix) with (String c (a ++ suffix)).
    cbn [Py.endswith]. rewrite IH. apply orb_true_r.
Qed.

Lemma lastd_replace_bounded n : forall s d,
  String.length s <= n ->
  lastd d (Py.replace s "  " " ") = lastd d s.
Proof.
  induction n as [|n IH]; intros s d L.
  - destruct s; [reflexivity | simpl in L; lia].
  - destruct s as [|c t]; [reflexivity|]. simpl in L.
    destruct (Ascii.eqb c " " && starts_space t) eqn:E.
    + apply andb_prop in E as [Ec Et]. apply Ascii.eqb_eq in Ec; subst c.
      destruct t as [|c' t']; [discriminate|].
      simpl in Et; apply Ascii.eqb_eq in Et; subst c'.
      rewrite replace_pair. simpl in *. apply IH; lia.
    + rewrite (replace_other _ _ E). simpl. apply IH; lia.
Qed.

Lemma lastd_lower d s :
  lastd (Py.lower_char d) (Py.lower s) = Py.lower_char (lastd d s).
Proof. revert d; induction s as [|c t IH]; intros d; simpl; [reflexivity | apply IH]. Qed.

Lemma endswith_dot_normalized s :
  Py.endswith (Py.capitalize (Py.replace s "  " " ")) "." = Py.endswith s ".".
Proof.
  rewrite !endswith_dot_last.
  destruct s as [|c t]; [reflexivity|].
  destruct (Ascii.eqb c " " && starts_space t) eqn:E.
  - apply andb_prop in E as [Ec Et]. apply Ascii.eqb_eq in Ec; subst c.
    destruct t as [|c' t']; [discriminate|].
    simpl in Et; apply Ascii.eqb_eq in Et; subst c'.
    rewrite replace_pair. cbn [Py.capitalize lastd].
    change (Py.upper_char " ") with (Py.lower_char " ").
    rewrite lastd_lower, lower_char_dot.
    rewrite (lastd_replace_bounded (String.length t')); [reflexivity | lia].
  - rewrite (replace_other _ _ E). cbn [Py.capitalize].
    destruct (Py.replace t "  " " ") as [|x u] eqn:R.
    + assert (t = "") as ->.
      { destruct t as [|c' t']; [reflexivity|]. exfalso.
        destruct (Ascii.eqb c' " " && starts_space t') eqn:E'.
        - apply andb_prop in E' as [Ec Et]. apply Ascii.eqb_eq in Ec; subst c'.
          destruct t' as [|c'' t'']; [discriminate|].
          simpl in Et; apply Ascii.eqb_eq in Et; subst c''.
          rewrite replace_pair in R; discriminate.
        - rewrite (replace_other _ _ E') in R; discriminate. }
      simpl. apply upper_char_dot.
    + assert (L : lastd c (String x u) = lastd c t)
        by (rewrite <- R; apply (lastd_replace_bounded (String.length t)); lia).
      cbn [Py.lower lastd] in *.
      rewrite lastd_lower, lower_char_dot, L. reflexivity.
Qed.

End MoreStrings.

(** ** The validation node, case by case *)

Section Validation.

Lemma validate_input_blank st :
  all_space (get (content st) "") = true ->
  validate_input st =
    mkState None (Some "validate_input") None None None (Some msg_empty).
Proof.
  intros H. unfold validate_input.
  rewrite (strip_all_space _ H). cbn [String.length Nat.eqb].
  rewrite orb_true_r. reflexivity.
Qed.

Lemma not_blank_has_content st :
  all_space (get (content st) "") = false ->
  content st = Some (get (content st) "").
Proof. destruct (content st); [reflexivity | discriminate]. Qed.

Lemma accepted_iff c :
  accepted c = true <-> all_space c = false /\ String.length c <= 1000.
Proof.
  unfold accepted. rewrite andb_true_iff, negb_true_iff, Nat.leb_le. reflexivity.
Qed.

Lemma strip_not_blank c : all_space c = false -> all_space (Py.strip c) = false.
Proof.
  intros H. destruct (all_space (Py.strip c)) eqn:E; [|reflexivity].
  apply strip_all_space in E. rewrite strip_idem in E.
  exfalso; exact (strip_not_all_space c H E).
Qed.

End Validation.

(** X1: the validation node decides on the content as given.  A blank
    content (absent, empty or whitespace only, whitespace being what
    [strip] removes) gets the empty-input error; a
    content that is not blank and longer than 1000 characters as given gets
    the too-long error, however short it is once trimmed; any other content
    is accepted, trimmed and logged with the length it had as given.  On
    both failures the update holds no content and no log entry. *)
Theorem validate_input_cases st :
  let c := get (content st) "" in
  (all_space c = true ->
   validate_input st =
     mkState None (Some "validate_input") None None None (Some msg_empty)) /\
  (all_space c = false -> 1000 < String.length c ->
   validate_input st =
     mkState None (Some "validate_input") None None None (Some msg_too_long)) /\
  (all_space c = false -> String.length c <= 1000 ->
   validate_input st =
     mkState (Some ["Input validated: " ++ Py.str (String.length c) ++ " characters"])
             (Some "validate_input") (Some (Py.strip c)) None None (Some "")) /\
  (error (validate_input st) = Some "" <-> accepted c = true).
Proof.
  intros c. subst c. split; [|split; [|split]].
  - apply validate_input_blank.
  - intros H L.
    apply (validate_input_too_long st _ (not_blank_has_content st H) H L).
  - intros H L.
    apply (validate_input_success st _ (not_blank_has_content st H) H L).
  - rewrite accepted_iff.
    destruct (all_space (get (content st) "")) eqn:H.
    + rewrite (validate_input_blank st H). split; [discriminate | intros [? _]; discriminate].
    + destruct (Nat.le_gt_cases (String.length (get (content st) "")) 1000) as [L|L].
      * rewrite (validate_input_success st _ (not_blank_has_content st H) H L).
        split; auto.
      * rewrite (validate_input_too_long st _ (not_blank_has_content st H) H L).
        split; [discriminate | intros [_ L']; lia].
Qed.

Lemma validate_input_cases_witness :
  error (validate_input no_update) = Some msg_empty /\
  error (validate_input (initial_state (String (ascii_of_nat 160) ""))) = Some msg_empty /\
  error (validate_input (initial_state (String "a" (Py.mul " " 1000))))
    = Some msg_too_long /\
  String.length (Py.strip (String "a" (Py.mul " " 1000))) = 1 /\
  content (validate_input (initial_state (String (ascii_of_nat 133) " ok "))) = Some "ok".
Proof.
  split; [|split; [|split; [|split]]].
  - rewrite (proj1 (validate_input_cases no_update)); reflexivity.
  - rewrite (proj1 (validate_input_cases
               (initial_state (String (ascii_of_nat 160) "")))); reflexivity.
  - rewrite (proj1 (proj2 (validate_input_cases
               (initial_state (String "a" (Py.mul " " 1000)))))).
    + reflexivity.
    + reflexivity.
    + vm_compute; lia.
  - reflexivity.
  - rewrite (proj1 (proj2 (proj2 (validate_input_cases
               (initial_state (String (ascii_of_nat 133) " ok ")))))).
    + reflexivity.
    + reflexivity.
    + vm_compute; lia.
Defined.

(** X2: the content that an accepting validation stores is trimmed: it is
    not empty, it starts with a character that is not whitespace, trimming
    it again changes nothing, and it is no longer than the content as
    given, hence at most 1000 characters. *)
Theorem validated_content_is_trimmed st :
  accepted (get (content st) "") = true ->
  exists t ch r,
    content (validate_input st) = Some t /\
    t = String ch r /\ Py.isspace ch = false /\
    Py.strip t = t /\
    String.length t <= String.length (get (content st) "") /\
    String.length t <= 1000.
Proof.
  intros A. apply accepted_iff in A as [H L].
  rewrite (validate_input_success st _ (not_blank_has_content st H) H L).
  destruct (strip_shape (get (content st) "")) as [E | (ch & r & E & Hch)].
  - exfalso; exact (strip_not_all_space _ H E).
  - exists (Py.strip (get (content st) "")), ch, r.
    pose proof (strip_length (get (content st) "")).
    repeat split; auto; [apply strip_idem | lia].
Qed.

Lemma validated_content_is_trimmed_witness :
  accepted (String (ascii_of_nat 160) " two words  ") = true /\
  content (validate_input (initial_state (String (ascii_of_nat 160) " two words  ")))
    = Some "two words".
Proof.
  split; [reflexivity|].
  destruct (validated_content_is_trimmed
              (initial_state (String (ascii_of_nat 160) " two words  ")) eq_refl)
    as (t & ch & r & E & _).
  rewrite E. simpl in E. injection E as <-. reflexivity.
Defined.

(** X3: validating an accepted state a second time accepts it again and
    stores the same content; only the logged length changes, from the
    length as given to the trimmed length. *)
Theorem validate_input_twice st :
  accepted (get (content st) "") = true ->
  let st1 := merge st (validate_input st) in
  let st2 := merge st1 (validate_input st1) in
  error (validate_input st1) = Some "" /\
  content st2 = content st1 /\
  content st1 = Some (Py.strip (get (content st) "")) /\
  messages (validate_input st1) =
    Some ["Input validated: " ++
          Py.str (String.length (Py.strip (get (content st) ""))) ++ " characters"].
Proof.
  intros A st1 st2. apply accepted_iff in A as [H L].
  assert (E1 : content st1 = Some (Py.strip (get (content st) ""))).
  { subst st1. rewrite (validate_input_success st _ (not_blank_has_content st H) H L).
    reflexivity. }
  assert (V : validate_input st1 =
              mkState (Some ["Input validated: " ++
                         Py.str (String.length (Py.strip (get (content st) ""))) ++
                         " characters"])
                      (Some "validate_input")
                      (Some (Py.strip (Py.strip (get (content st) ""))))
                      None None (Some "")).
  { apply (validate_input_success st1 _ E1).
    - apply strip_not_blank, H.
    - pose proof (strip_length (get (content st) "")). lia. }
  subst st2. rewrite V. repeat split; auto.
  simpl. rewrite strip_idem. symmetry; exact E1.
Qed.

Lemma validate_input_twice_witness :
  accepted " a " = true /\
  content (merge (merge (initial_state " a ") (validate_input (initial_state " a ")))
                 (validate_input
                    (merge (initial_state " a ") (validate_input (initial_state " a ")))))
  = Some "a".
Proof.
  split; [reflexivity|].
  destruct (validate_input_twice (initial_state " a ") eq_refl) as (_ & E & _).
  rewrite E. reflexivity.
Defined.

(** ** The transformation node: shape and size of its output *)

Section Transformation.

Lemma processed_of_facts c :
  Py.endswith (processed_of c) "." = true /\
  Py.capitalize (processed_of c) = processed_of c /\
  (Py.contains "   " (Py.strip c) = false ->
   Py.contains "  " (processed_of c) = false).
Proof.
  rewrite processed_of_eq. cbv zeta.
  set (q := Py.replace (Py.strip c) "  " " ").
  destruct (Py.endswith (Py.capitalize q) ".") eqn:D; simpl.
  - split; [exact D|]. split; [apply capitalize_idem|].
    intros H. rewrite capitalize_contains_double. apply replace_no_double, H.
  - split; [apply endswith_app_dot|]. split; [apply capitalize_app_dot|].
    intros H. rewrite app_dot_contains_double, capitalize_contains_double.
    apply replace_no_double, H.
Qed.

Lemma processed_of_head c :
  exists ch r, processed_of c = String ch r /\ Py.isspace ch = false.
Proof.
  rewrite processed_of_eq. cbv zeta.
  destruct (strip_shape c) as [E | (ch & r & E & Hch)]; rewrite E.
  - exists "."%char, "". split; reflexivity.
  - rewrite replace_other
      by (rewrite (space_is_isspace ch Hch); reflexivity).
    cbn [Py.capitalize].
    exists (Py.upper_char ch).
    destruct (negb (Py.endswith
                (String (Py.upper_char ch) (Py.lower (Py.replace r "  " " "))) "."));
      eexists; (split; [reflexivity | rewrite upper_char_isspace; exact Hch]).
Qed.

Lemma processed_of_strip c : Py.strip (processed_of c) = processed_of c.
Proof.
  destruct (processed_of_head c) as (ch & r & E & Hch).
  destruct (processed_of_facts c) as (D & _).
  apply endswith_split in D as (a & Ea).
  unfold Py.strip. rewrite E at 1. simpl Py.lstrip. rewrite Hch, <- E.
  rewrite Ea. apply rstrip_app_tail; [reflexivity | discriminate].
Qed.

Lemma lstrip_pad w s : all_space w = true -> Py.lstrip (w ++ s) = Py.lstrip s.
Proof.
  induction w as [|c w IH]; simpl; [reflexivity|].
  intros H; apply andb_prop in H as [Hc Hw]. rewrite Hc; auto.
Qed.

Lemma rstrip_pad s w : all_space w = true -> Py.rstrip (s ++ w) = Py.rstrip s.
Proof.
  intros Hw; induction s as [|c s IH]; simpl.
  - apply rstrip_all_space, Hw.
  - rewrite IH; reflexivity.
Qed.

Lemma lstrip_app s t :
  all_space s = false -> Py.lstrip (s ++ t) = Py.lstrip s ++ t.
Proof.
  induction s as [|c s IH]; simpl; [discriminate|].
  destruct (Py.isspace c); simpl; [exact IH | reflexivity].
Qed.

Lemma all_space_app s t : all_space (s ++ t) = all_space s && all_space t.
Proof.
  induction s as [|c s IH]; simpl; [reflexivity|].
  rewrite IH, andb_assoc; reflexivity.
Qed.

Lemma strip_pad w1 s w2 :
  all_space w1 = true -> all_space w2 = true ->
  Py.strip (w1 ++ s ++ w2) = Py.strip s.
Proof.
  intros H1 H2. unfold Py.strip. rewrite (lstrip_pad w1 _ H1).
  destruct (all_space s) eqn:Hs.
  - rewrite (lstrip_all_space s Hs).
    rewrite lstrip_all_space; [reflexivity|].
    rewrite all_space_app, Hs, H2; reflexivity.
  - rewrite (lstrip_app s w2 Hs). apply rstrip_pad, H2.
Qed.

End Transformation.

(** X4: for ASCII content, the processed content is never empty and is at
    most one character longer than the trimmed content; the node's log
    entry reports exactly that length. *)
Theorem processed_length_bounds st :
  let c := get (content st) "" in
  Py.isascii c = true ->
  exists p,
    processed_content (process_content st) = Some p /\
    1 <= String.length p /\
    String.length p <= String.length (Py.strip c) + 1 /\
    String.length p <= String.length c + 1 /\
    messages (process_content st) =
      Some ["Content processed: " ++ Py.str (String.length p) ++ " characters"].
Proof.
  intros c. subst c. intros _. rewrite process_content_eq.
  set (c := get (content st) "").
  exists (processed_of c). split; [reflexivity|].
  assert (B : 1 <= String.length (processed_of c) <= String.length (Py.strip c) + 1).
  { destruct (processed_of_head c) as (ch & r & E & _).
    split; [rewrite E; simpl; lia|].
    rewrite processed_of_eq. cbv zeta.
    pose proof (replace_length (Py.strip c)) as R.
    destruct (negb (Py.endswith (Py.capitalize (Py.replace (Py.strip c) "  " " ")) "."));
      [rewrite length_app|]; rewrite capitalize_length; simpl; lia. }
  pose proof (strip_length c).
  repeat split; try lia.
Qed.

Lemma processed_length_bounds_witness :
  Py.isascii " ab  cd " = true /\
  exists p,
    processed_content (process_content (initial_state " ab  cd ")) = Some p /\
    String.length p <= String.length (Py.strip " ab  cd ") + 1.
Proof.
  split; [reflexivity|].
  destruct (processed_length_bounds (initial_state " ab  cd ") eq_refl)
    as (p & Hp & _ & Hb & _).
  exists p. split; [exact Hp | exact Hb].
Defined.


(** X6: processing is idempotent on ASCII contents without a run of three
    spaces: feeding the processed content back into the node gives the
    same processed content. *)
Theorem process_content_idempotent c :
  Py.isascii c = true ->
  Py.contains "   " (Py.strip c) = false ->
  processed_of (processed_of c) = processed_of c.
Proof.
  intros _ H. destruct (processed_of_facts c) as (D & Cap & Dbl).
  specialize (Dbl H).
  rewrite (processed_of_eq (processed_of c)). cbv zeta.
  rewrite processed_of_strip, (replace_id _ Dbl), Cap, D. reflexivity.
Qed.

Lemma process_content_idempotent_witness :
  Py.isascii " some  text " = true /\
  Py.contains "   " (Py.strip " some  text ") = false /\
  processed_of " some  text " = "Some text." /\
  processed_of "Some text." = "Some text.".
Proof.
  split; [reflexivity|]. split; [reflexivity|]. split; [reflexivity|].
  apply (process_content_idempotent " some  text "); reflexivity.
Defined.

(** X7: for ASCII content, a full stop is appended exactly when the
    trimmed content does not already end with one: if it does, the
    processed content is the capitalized, space-reduced content itself; if
    it does not, it is that content followed by one full stop. *)
Theorem full_stop_rule c :
  Py.isascii c = true ->
  let q := Py.capitalize (Py.replace (Py.strip c) "  " " ") in
  (Py.endswith (Py.strip c) "." = true ->
   processed_of c = q /\ String.length (processed_of c) <= String.length (Py.strip c)) /\
  (Py.endswith (Py.strip c) "." = false ->
   processed_of c = q ++ "." /\ Py.endswith q "." = false).
Proof.
  intros _ q. subst q. rewrite processed_of_eq. cbv zeta.
  rewrite endswith_dot_normalized.
  split; intros H; rewrite H; simpl; split; try reflexivity.
  rewrite capitalize_length. apply replace_length.
Qed.

Lemma full_stop_rule_witness :
  Py.isascii "done." = true /\
  processed_of "done." = "Done." /\ processed_of "done" = "Done.".
Proof.
  split; [reflexivity|]. split.
  - apply (proj1 (full_stop_rule "done." eq_refl)). reflexivity.
  - apply (proj2 (full_stop_rule "done" eq_refl)). reflexivity.
Defined.

(** X8: whitespace around the content never changes the processed content:
    a content and the same content padded on either side with whitespace
    (any of the characters that [strip] removes) are processed to the same
    text. *)
Theorem processing_ignores_padding w1 c w2 :
  all_space w1 = true -> all_space w2 = true ->
  processed_of (w1 ++ c ++ w2) = processed_of c /\
  processed_of (Py.strip c) = processed_of c.
Proof.
  intros H1 H2. rewrite !processed_of_eq. cbv zeta.
  rewrite (strip_pad w1 c w2 H1 H2), strip_idem. split; reflexivity.
Qed.

Lemma processing_ignores_padding_witness :
  processed_of (String (ascii_of_nat 9) (String (ascii_of_nat 160) "hi  there") ++ nl)
  = processed_of "hi  there".
Proof.
  apply (processing_ignores_padding
           (String (ascii_of_nat 9) (String (ascii_of_nat 160) "")) "hi  there" nl);
    reflexivity.
Defined.

(** ** The formatting and error-handling nodes *)

(** X9: [format_output] reproduces the processed content verbatim between
    its heading and its statistics: the final [.strip()] removes only the
    template's own leading newline and trailing indentation, so the result
    starts with the heading, contains the processed content, ends with the
    step count and has no surrounding whitespace.  The step count is the
    number of log entries before the node's own entry is appended, one less
    than the log holds after the merge. *)
Theorem format_output_summary st :
  let p := get (processed_content st) "" in
  let n := List.length (get (messages st) []) in
  exists r,
    final_result (format_output st) = Some r /\
    r = summary p (String.length (get (content st) "")) (String.length p) n /\
    Py.strip r = r /\
    prefix "📝 Processed Content:" r = true /\
    Py.contains p r = true /\
    Py.endswith r ("- Processing steps: " ++ Py.str n) = true /\
    List.length (get (messages (merge st (format_output st))) []) = n + 1.
Proof.
  intros p n. rewrite format_output_eq. fold p n.
  eexists. split; [reflexivity|]. split; [reflexivity|].
  split; [|split; [|split; [|split]]].
  - rewrite <- strip_summary_template. apply strip_idem.
  - unfold summary. apply prefix_app.
  - unfold summary. do 2 apply contains_app_l. apply contains_app_r.
  - unfold summary.
    repeat rewrite <- append_assoc. rewrite append_assoc. apply endswith_app.
  - subst n. simpl. destruct (messages st); simpl; rewrite ?List.length_app; simpl; lia.
Qed.

(** X10: the error-handling node never clears the error: after its update
    is merged the error key holds the message it reported, so the router
    would still answer "error" for a non-empty message; and handling the
    merged state again produces the very same update. *)
Theorem handle_error_keeps_error st :
  let e := get (error st) "Unknown error occurred" in
  let st' := merge st (handle_error st) in
  error st' = Some e /\
  final_result st' = Some ("❌ Error: " ++ e) /\
  current_step st' = Some "handle_error" /\
  content st' = content st /\
  should_process st' = (if Py.truthy e then "error" else "process") /\
  handle_error st' = handle_error st.
Proof.
  intros e st'. subst st' e. unfold handle_error, should_process. simpl.
  repeat split.
Qed.

(** ** Every run completes *)

Section AnyInitialState.

Lemma exec_error_path st e k :
  validate_input st =
    mkState None (Some "validate_input") None None None (Some e) ->
  Py.truthy e = true ->
  exec _create_workflow (S (S k)) "validate_input" st =
  Completed (mkState (Some (List.app (get (messages st) []) ["Error handled: " ++ e]))
                     (Some "handle_error") (content st) (processed_content st)
                     (Some ("❌ Error: " ++ e)) (Some e)).
Proof.
  intros Hv He.
  rewrite (exec_step _create_workflow _ "validate_input" _ validate_input eq_refl), Hv.
  rewrite next_after_validate.
  cbn [merge replace_field append_field error
       messages current_step content processed_content final_result].
  rewrite He. cbn [String.eqb Ascii.eqb Bool.eqb END].
  rewrite (exec_step _create_workflow _ "handle_error" _ handle_error eq_refl).
  reflexivity.
Qed.

Lemma exec_success_path st k :
  accepted (get (content st) "") = true ->
  exec _create_workflow (S (S (S k))) "validate_input" st =
  let c := get (content st) "" in
  let p := processed_of (Py.strip c) in
  let log := List.app (get (messages st) [])
               ["Input validated: " ++ Py.str (String.length c) ++ " characters";
                "Content processed: " ++ Py.str (String.length p) ++ " characters"] in
  Completed (mkState (Some (List.app log ["Output formatted successfully"]))
                     (Some "format_output") (Some (Py.strip c)) (Some p)
                     (Some (summary p (String.length (Py.strip c)) (String.length p)
                                    (List.length log)))
                     (Some "")).
Proof.
  intros A. apply accepted_iff in A as [H L].
  rewrite (exec_step _create_workflow _ "validate_input" _ validate_input eq_refl).
  rewrite (validate_input_success st _ (not_blank_has_content st H) H L).
  rewrite next_after_validate.
  cbn [merge replace_field append_field error get
       messages current_step content processed_content final_result].
  cbn [Py.truthy String.eqb Ascii.eqb Bool.eqb END].
  rewrite (exec_step _create_workflow _ "process_content" _ process_content eq_refl).
  rewrite process_content_eq.
  cbn [merge replace_field append_field error get
       messages current_step content processed_content final_result].
  change (next _create_workflow "process_content" ?s)
    with (@inr cause string "format_output").
  cbn [String.eqb Ascii.eqb Bool.eqb END].
  rewrite (exec_step _create_workflow _ "format_output" _ format_output eq_refl).
  rewrite format_output_eq.
  cbn [merge replace_field append_field error get
       messages current_step content processed_content final_result].
  change (next _create_workflow "format_output" ?s) with (@inr cause string END).
  cbn [String.eqb Ascii.eqb Bool.eqb END].
  cbv zeta.
  cbv [merge replace_field append_field get error
       messages current_step content processed_content final_result].
  rewrite <- !List.app_assoc. reflexivity.
Qed.

End AnyInitialState.

(** X11: every call of [run] completes, and the final state tells which
    path was taken.  An accepted input ends in [format_output] with an
    empty error, the trimmed content, a processed content that ends with a
    full stop (for ASCII input: the processed form of the input) and three
    log entries; any other input ends in [handle_error] with one of the two
    validation messages, the formatted error as final result, the content
    as given, an empty processed content and a single log entry. *)
Theorem run_outcome c :
  exists st,
    run c = Completed st /\
    (if accepted c
     then error st = Some "" /\
          current_step st = Some "format_output" /\
          content st = Some (Py.strip c) /\
          (exists p, processed_content st = Some p /\
                     Py.endswith p "." = true /\
                     (Py.isascii c = true -> p = processed_of c)) /\
          List.length (get (messages st) []) = 3
     else exists msg,
          (msg = msg_empty \/ msg = msg_too_long) /\
          error st = Some msg /\
          current_step st = Some "handle_error" /\
          final_result st = Some ("❌ Error: " ++ msg) /\
          content st = Some c /\
          processed_content st = Some "" /\
          messages st = Some ["Error handled: " ++ msg]).
Proof.
  destruct (accepted c) eqn:A.
  - apply accepted_iff in A as [H L].
    eexists. split; [apply (run_success_path c H L)|].
    split; [reflexivity|]. split; [reflexivity|]. split; [reflexivity|].
    split; [|reflexivity].
    exists (processed_of (Py.strip c)). split; [reflexivity|].
    split; [apply processed_of_facts|].
    intros _. rewrite !processed_of_eq. cbv zeta.
    rewrite strip_idem. reflexivity.
  - assert (R : exists msg, (msg = msg_empty \/ msg = msg_too_long) /\
                validate_input (initial_state c) =
                  mkState None (Some "validate_input") None None None (Some msg)).
    { destruct (all_space c) eqn:H.
      - exists msg_empty. split; [left; reflexivity|].
        apply (validate_input_blank (initial_state c)), H.
      - exists msg_too_long. split; [right; reflexivity|].
        apply (validate_input_too_long (initial_state c) c eq_refl H).
        unfold accepted in A. rewrite H in A. simpl in A.
        apply Nat.leb_gt in A. exact A. }
    destruct R as (msg & Hm & V).
    eexists. split.
    + apply (run_error_path c msg V). destruct Hm as [-> | ->]; reflexivity.
    + exists msg. repeat split. exact Hm.
Qed.

Lemma run_outcome_witness :
  Py.isascii " hello  there " = true /\
  exists st,
    run " hello  there " = Completed st /\
    processed_content st = Some "Hello there.".
Proof.
  split; [reflexivity|].
  destruct (run_outcome " hello  there ") as (st & Hrun & Hpath).
  exists st. split; [exact Hrun|].
  change (accepted " hello  there ") with true in Hpath. cbv iota in Hpath.
  destruct Hpath as (_ & _ & _ & (p & Hp & _ & Ha) & _).
  rewrite Hp, (Ha eq_refl). reflexivity.
Defined.

(** X12: the graph of [_create_workflow] is closed: its entry point is a
    registered node, the end marker is not a node name, and from every
    registered node and in every state the next destination is defined (the
    router only answers labels the edge table declares) and is the end
    marker or a registered node. *)
Theorem workflow_is_closed :
  (exists node, assoc (entry_point _create_workflow) (nodes _create_workflow)
                = Some node) /\
  assoc END (nodes _create_workflow) = None /\
  (forall name node st,
     assoc name (nodes _create_workflow) = Some node ->
     exists d,
       next _create_workflow name st = inr d /\
       (d = END \/ exists node', assoc d (nodes _create_workflow) = Some node')).
Proof.
  split; [eexists; reflexivity|]. split; [reflexivity|].
  intros name node st H.
  unfold _create_workflow in H. cbn [nodes assoc] in H.
  destruct (String.eqb_spec name "validate_input") as [->|_].
  { rewrite next_after_validate.
    destruct (match error st with Some e => Py.truthy e | None => false end);
      eexists; (split; [reflexivity | right; eexists; reflexivity]). }
  destruct (String.eqb_spec name "process_content") as [->|_].
  { eexists; split; [reflexivity | right; eexists; reflexivity]. }
  destruct (String.eqb_spec name "format_output") as [->|_].
  { eexists; split; [reflexivity | left; reflexivity]. }
  destruct (String.eqb_spec name "handle_error") as [->|_].
  { eexists; split; [reflexivity | left; reflexivity]. }
  discriminate H.
Qed.

Lemma workflow_is_closed_witness :
  exists d, next _create_workflow "process_content" no_update = inr d /\
            d = "format_output".
Proof.
  destruct (proj2 (proj2 workflow_is_closed) "process_content" process_content
              no_update eq_refl) as (d & E & _).
  exists d. split; [exact E|]. simpl in E. injection E as <-. reflexivity.
Defined.

(** X13: from any initial state the workflow takes at most three node
    invocations: with every step bound of three or more the outcome is the
    same and it is Completed, ending in [format_output] or in
    [handle_error]; in particular [invoke] never fails on this graph. *)
Theorem workflow_completes_in_three init k :
  exists st,
    exec _create_workflow (3 + k) (entry_point _create_workflow) init = Completed st /\
    exec _create_workflow 3 (entry_point _create_workflow) init = Completed st /\
    (current_step st = Some "format_output" \/ current_step st = Some "handle_error") /\
    (exists st', invoke _create_workflow init = Completed st').
Proof.
  change (entry_point _create_workflow) with "validate_input".
  assert (G : forall st, exists st', forall j,
              exec _create_workflow (3 + j) "validate_input" st = Completed st' /\
              (current_step st' = Some "format_output" \/
               current_step st' = Some "handle_error")).
  { intros st. destruct (accepted (get (content st) "")) eqn:A.
    - eexists. intros j. change (3 + j) with (S (S (S j))).
      rewrite (exec_success_path st j A). cbv zeta.
      split; [reflexivity | left; reflexivity].
    - assert (R : exists msg, Py.truthy msg = true /\
                validate_input st =
                  mkState None (Some "validate_input") None None None (Some msg)).
      { destruct (all_space (get (content st) "")) eqn:H.
        - exists msg_empty. split; [reflexivity|]. apply validate_input_blank, H.
        - exists msg_too_long. split; [reflexivity|].
          apply (validate_input_too_long st _ (not_blank_has_content st H) H).
          unfold accepted in A. rewrite H in A. simpl in A.
          apply Nat.leb_gt in A. exact A. }
      destruct R as (msg & T & V).
      eexists. intros j. change (3 + j) with (S (S (S j))).
      rewrite (exec_error_path st msg (S j) V T).
      split; [reflexivity | right; reflexivity]. }
  destruct (G init) as (st & Hst).
  destruct (G (merge no_update init)) as (st' & Hst').
  exists st. split; [apply Hst|]. split; [apply (Hst 0)|].
  split; [apply (Hst 0)|].
  exists st'. unfold invoke, max_steps_default.
  change (entry_point _create_workflow) with "validate_input".
  apply (Hst' 47).
Qed.

(** * Properties of the AutoGen example *)

Section Termination.

Lemma eqb_same_length (a b : string) :
  String.eqb a b = true -> String.length a = String.length b.
Proof. intros H; apply String.eqb_eq in H; subst; reflexivity. Qed.

Lemma endswith_app_long x y suffix :
  String.length suffix <= String.length y ->
  Py.endswith (x ++ y) suffix = Py.endswith y suffix.
Proof.
  intros L; induction x as [|c x IH]; [reflexivity|].
  change (String c x ++ y) with (String c (x ++ y)).
  cbn [Py.endswith]. rewrite IH.
  destruct (String.eqb (String c (x ++ y)) suffix) eqn:E; [|reflexivity].
  apply eqb_same_length in E. simpl in E. rewrite length_app in E. lia.
Qed.

Lemma rstrip_terminate a w :
  all_space w = true ->
  Py.rstrip (a ++ "TERMINATE" ++ w) = a ++ "TERMINATE".
Proof.
  intros Hw. rewrite <- append_assoc, (rstrip_pad _ w Hw).
  apply rstrip_app_tail; [reflexivity | discriminate].
Qed.

End Termination.

(** X14: the termination test of the ProductOwner agent.  A message
    without a content key does not terminate; a message whose content is
    [None] makes the test raise; a message with a text content terminates
    exactly when the text is some text ending in TERMINATE, followed by
    nothing but whitespace (any of the characters that [rstrip] removes,
    the no-break space among them). *)
Theorem termination_test_spec x :
  (assoc "content" x = None -> DevTeam.is_termination_msg x = Some false) /\
  (assoc "content" x = Some DevTeam.PNone -> DevTeam.is_termination_msg x = None) /\
  (forall s,
     assoc "content" x = Some (DevTeam.PStr s) ->
     (DevTeam.is_termination_msg x = Some true <->
      exists a w, s = a ++ "TERMINATE" ++ w /\ all_space w = true) /\
     (DevTeam.is_termination_msg x = Some true \/
      DevTeam.is_termination_msg x = Some false)).
Proof.
  unfold DevTeam.is_termination_msg.
  split; [|split].
  - intros H; rewrite H; reflexivity.
  - intros H; rewrite H; reflexivity.
  - intros s H; rewrite H; cbn [get]. split.
    + split.
      * intros E. injection E as E.
        apply endswith_split in E as (a & Ea).
        destruct (rstrip_decomp s) as (w & Es & Hw).
        exists a, w. split; [|exact Hw].
        rewrite Es at 1. rewrite Ea. apply append_assoc.
      * intros (a & w & -> & Hw).
        rewrite (rstrip_terminate a w Hw), endswith_app. reflexivity.
    + destruct (Py.endswith (Py.rstrip s) "TERMINATE"); [left | right]; reflexivity.
Qed.

Lemma termination_test_spec_witness :
  DevTeam.is_termination_msg [("role", DevTeam.PStr "user")] = Some false /\
  DevTeam.is_termination_msg [("content", DevTeam.PNone)] = None /\
  DevTeam.is_termination_msg
    [("content", DevTeam.PStr ("All done. TERMINATE" ++ nl ++ String (ascii_of_nat 160) " "))]
    = Some true.
Proof.
  split; [|split].
  - apply (proj1 (termination_test_spec [("role", DevTeam.PStr "user")])).
    reflexivity.
  - apply (proj1 (proj2 (termination_test_spec [("content", DevTeam.PNone)]))).
    reflexivity.
  - apply (proj1 (proj2 (proj2 (termination_test_spec
             [("content",
               DevTeam.PStr ("All done. TERMINATE" ++ nl ++ String (ascii_of_nat 160) " "))]))
             ("All done. TERMINATE" ++ nl ++ String (ascii_of_nat 160) " ") eq_refl)).
    exists "All done. ", (nl ++ String (ascii_of_nat 160) " "). split; reflexivity.
Defined.

Section OpeningMessages.

Lemma not_terminating_tail x last :
  Py.rstrip last = last ->
  9 <= String.length last ->
  Py.endswith last "TERMINATE" = false ->
  Py.endswith (Py.rstrip (((x ++ last) ++ nl) ++ "        ")) "TERMINATE" = false.
Proof.
  intros R L E.
  rewrite !rstrip_pad by reflexivity.
  rewrite (rstrip_app_tail x last last R)
    by (intros ->; simpl in L; lia).
  rewrite endswith_app_long by exact L. exact E.
Qed.

End OpeningMessages.

(** X15: none of the three opening messages ends the chat by itself:
    whatever the project description, the code and language, or the feature
    description, the termination test answers no on the message, although
    each message spells out the word TERMINATE in its last line. *)
Theorem opening_messages_do_not_terminate :
  (forall project_description,
     DevTeam.is_termination_msg
       [("content", DevTeam.PStr (DevTeam.initial_message project_description))]
     = Some false /\
     Py.contains "TERMINATE" (DevTeam.initial_message project_description) = true) /\
  (forall code language,
     DevTeam.is_termination_msg
       [("content", DevTeam.PStr (DevTeam.review_message code language))]
     = Some false /\
     Py.contains "TERMINATE" (DevTeam.review_message code language) = true) /\
  (forall feature_description,
     DevTeam.is_termination_msg
       [("content", DevTeam.PStr (DevTeam.arch_message feature_description))]
     = Some false /\
     Py.contains "TERMINATE" (DevTeam.arch_message feature_description) = true).
Proof.
  split; [|split]; intros; split.
  - unfold DevTeam.is_termination_msg. cbn [assoc String.eqb Ascii.eqb Bool.eqb get].
    f_equal. unfold DevTeam.initial_message.
    rewrite <- !append_assoc.
    apply not_terminating_tail; [reflexivity | simpl; lia | reflexivity].
  - unfold DevTeam.initial_message.
    repeat first [ apply contains_app_r | apply contains_app_l ].
  - unfold DevTeam.is_termination_msg. cbn [assoc String.eqb Ascii.eqb Bool.eqb get].
    f_equal. unfold DevTeam.review_message.
    rewrite <- !append_assoc.
    apply not_terminating_tail; [reflexivity | simpl; lia | reflexivity].
  - unfold DevTeam.review_message.
    repeat first [ apply contains_app_r | apply contains_app_l ].
  - unfold DevTeam.is_termination_msg. cbn [assoc String.eqb Ascii.eqb Bool.eqb get].
    f_equal. unfold DevTeam.arch_message.
    rewrite <- !append_assoc.
    apply not_terminating_tail; [reflexivity | simpl; lia | reflexivity].
  - unfold DevTeam.arch_message.
    repeat first [ apply contains_app_r | apply contains_app_l ].
Qed.

Section FirstLine.

Lemma contains_nl_cons c r :
  Py.contains nl (String c r) = Ascii.eqb c (ascii_of_nat 10) || Py.contains nl r.
Proof.
  unfold nl. cbn [Py.contains]. rewrite prefix_cons, Ascii.eqb_sym.
  destruct r; rewrite andb_true_r; reflexivity.
Qed.

Lemma first_line_no_nl s : Py.contains nl (DevTeam.first_line s) = false.
Proof.
  induction s as [|c r IH]; [reflexivity|].
  cbn [DevTeam.first_line].
  destruct (Ascii.eqb c (ascii_of_nat 10)) eqn:E; [reflexivity|].
  rewrite contains_nl_cons, E, IH. reflexivity.
Qed.

Lemma first_line_prefix s : prefix (DevTeam.first_line s) s = true.
Proof.
  induction s as [|c r IH]; [reflexivity|].
  cbn [DevTeam.first_line].
  destruct (Ascii.eqb c (ascii_of_nat 10)); [reflexivity|].
  rewrite prefix_cons, Ascii.eqb_refl. exact IH.
Qed.

Lemma first_line_whole s :
  Py.contains nl s = false -> DevTeam.first_line s = s.
Proof.
  induction s as [|c r IH]; [reflexivity|].
  rewrite contains_nl_cons. intros H. apply orb_false_elim in H as [Hc Hr].
  cbn [DevTeam.first_line]. rewrite Hc, (IH Hr). reflexivity.
Qed.

End FirstLine.

(** X16: the team summary lists the agents under the same keys and in the
    same order as the agent dictionary; each role is a single line, the
    beginning of that agent's system message, and the whole message when
    the message has one line.  For the team of [_create_agents] there are
    six roles and each begins "You are a". *)
Theorem team_summary_roles :
  (forall agents,
     List.map fst (DevTeam.get_team_summary agents) = List.map fst agents /\
     Forall2 (fun entry role =>
                fst role = fst entry /\
                Py.contains nl (snd role) = false /\
                prefix (snd role) (DevTeam.system_message (snd entry)) = true /\
                (Py.contains nl (DevTeam.system_message (snd entry)) = false ->
                 snd role = DevTeam.system_message (snd entry)))
             agents (DevTeam.get_team_summary agents)) /\
  List.length (DevTeam.get_team_summary DevTeam._create_agents) = 6 /\
  Forall (fun role => prefix "You are a" (snd role) = true)
         (DevTeam.get_team_summary DevTeam._create_agents).
Proof.
  split; [|split].
  - intros agents. induction agents as [|[key a] rest [IH1 IH2]].
    + split; constructor.
    + split.
      * simpl. f_equal. exact IH1.
      * constructor; [|exact IH2]. cbn [fst snd].
        split; [reflexivity|]. split; [apply first_line_no_nl|].
        split; [apply first_line_prefix | apply first_line_whole].
  - reflexivity.
  - repeat constructor.
Qed.

Lemma team_summary_roles_witness :
  DevTeam.get_team_summary [("solo", DevTeam.mkAgent "Solo" "One line only" 1)]
  = [("solo", "One line only")].
Proof.
  destruct (proj1 team_summary_roles
              [("solo", DevTeam.mkAgent "Solo" "One line only" 1)]) as [_ F].
  inversion F as [|e r l l' (_ & _ & _ & W) F' E1 E2]; subst.
  reflexivity.
Defined.

(** * Properties of the CrewAI example *)

Section Join.

Lemma prefix_app_left x s t : prefix x s = true -> prefix x (s ++ t) = true.
Proof.
  revert x; induction s as [|c s IH]; intros x H.
  - destruct x; [destruct t; reflexivity | discriminate].
  - destruct x as [|a x]; [reflexivity|].
    change (String c s ++ t) with (String c (s ++ t)).
    rewrite prefix_cons in *. apply andb_prop in H as [Ha Hx].
    rewrite Ha, (IH x Hx). reflexivity.
Qed.

Lemma contains_app_left x s t :
  Py.contains x s = true -> Py.contains x (s ++ t) = true.
Proof.
  induction s as [|c s IH]; cbn [Py.contains]; intros H.
  - rewrite orb_false_r in H. destruct x; [destruct t; reflexivity | discriminate].
  - change (String c s ++ t) with (String c (s ++ t)). cbn [Py.contains].
    apply orb_prop in H as [H|H].
    + pose proof (prefix_app_left _ _ t H) as P.
      change (String c s ++ t) with (String c (s ++ t)) in P.
      rewrite P. reflexivity.
    + rewrite (IH H). apply orb_true_r.
Qed.

Lemma prefix_refl x : prefix x x = true.
Proof.
  induction x as [|c x IH]; [reflexivity|].
  rewrite prefix_cons, Ascii.eqb_refl. exact IH.
Qed.

Lemma contains_refl x : Py.contains x x = true.
Proof.
  destruct x as [|c x]; [reflexivity|]. cbn [Py.contains].
  rewrite prefix_refl. reflexivity.
Qed.

Lemma contains_app4 a b c d rest :
  Py.contains (a ++ b ++ c ++ d) (a ++ b ++ c ++ d ++ rest) = true.
Proof.
  replace (a ++ b ++ c ++ d ++ rest) with ((a ++ b ++ c ++ d) ++ rest)
    by (rewrite !append_assoc; reflexivity).
  apply contains_app_r.
Qed.

Lemma in_join sep x l :
  In x l -> Py.contains x (ResearchCrew.join sep l) = true.
Proof.
  induction l as [|y rest IH]; [contradiction|].
  intros [-> | H].
  - destruct rest; cbn [ResearchCrew.join];
      [apply contains_refl | apply contains_app_r].
  - destruct rest as [|z rest']; [contradiction|].
    cbn [ResearchCrew.join]. do 2 apply contains_app_l. apply IH, H.
Qed.

End Join.

(** X17: [create_research_task] treats an empty list of focus areas like
    a missing one: both give the task built from the three default areas.
    Every focus area that is given appears in the task description, which
    also quotes the topic; the task belongs to the researcher and has no
    context yet. *)
Theorem research_task_focus_areas topic :
  ResearchCrew.create_research_task topic (Some []) =
    ResearchCrew.create_research_task topic None /\
  ResearchCrew.create_research_task topic
    (Some ["current trends"; "key statistics"; "expert opinions"]) =
    ResearchCrew.create_research_task topic None /\
  Py.contains "current trends, key statistics, expert opinions"
    (ResearchCrew.description (ResearchCrew.create_research_task topic None)) = true /\
  (forall areas a,
     In a areas ->
     Py.contains a
       (ResearchCrew.description
          (ResearchCrew.create_research_task topic (Some areas))) = true) /\
  (forall areas,
     Py.contains ("Research the topic: " ++ dq ++ topic ++ dq)
       (ResearchCrew.description (ResearchCrew.create_research_task topic areas)) = true /\
     ResearchCrew.agent (ResearchCrew.create_research_task topic areas)
       = ResearchCrew.researcher /\
     ResearchCrew.context (ResearchCrew.create_research_task topic areas) = None).
Proof.
  split; [reflexivity|]. split; [reflexivity|]. split; [|split].
  - unfold ResearchCrew.create_research_task. cbv zeta.
    cbn [ResearchCrew.description ResearchCrew.or_list ResearchCrew.join].
    do 9 apply contains_app_l. apply contains_app_left. reflexivity.
  - intros areas a H.
    unfold ResearchCrew.create_research_task. cbv zeta.
    cbn [ResearchCrew.description].
    do 9 apply contains_app_l. apply contains_app_left. apply in_join.
    destruct areas; [contradiction | exact H].
  - intros areas. split; [|split; reflexivity].
    unfold ResearchCrew.create_research_task. cbv zeta.
    cbn [ResearchCrew.description].
    apply contains_app_l.
    change ("            Research the topic: ")
      with ("            " ++ "Research the topic: ").
    rewrite append_assoc. apply contains_app_l. apply contains_app4.
Qed.

Lemma research_task_focus_areas_witness :
  Py.contains "cost savings"
    (ResearchCrew.description
       (ResearchCrew.create_research_task "AI"
          (Some ["productivity metrics"; "cost savings"]))) = true.
Proof.
  apply (proj1 (proj2 (proj2 (proj2 (research_task_focus_areas "AI"))))
           ["productivity metrics"; "cost savings"] "cost savings").
  right; left; reflexivity.
Defined.

(** X18: [create_editing_task] treats an empty list of quality standards
    like a missing one: both give the task built from the five default
    standards, joined by ", ".  Every standard that is given appears in the
    task description; the task belongs to the editor. *)
Theorem editing_task_standards :
  ResearchCrew.create_editing_task (Some []) = ResearchCrew.create_editing_task None /\
  Py.contains
    ("Focus areas: grammar and spelling, clarity and readability, logical flow, " ++
     "fact accuracy, professional tone" ++ nl)
    (ResearchCrew.description (ResearchCrew.create_editing_task None)) = true /\
  (forall standards a,
     In a standards ->
     Py.contains a
       (ResearchCrew.description
          (ResearchCrew.create_editing_task (Some standards))) = true) /\
  (forall standards,
     ResearchCrew.agent (ResearchCrew.create_editing_task standards)
       = ResearchCrew.editor).
Proof.
  split; [reflexivity|]. split; [reflexivity|]. split; [|reflexivity].
  intros standards a H.
  unfold ResearchCrew.create_editing_task. cbv zeta.
  cbn [ResearchCrew.description].
  do 6 apply contains_app_l. apply contains_app_left. apply in_join.
  destruct standards; [contradiction | exact H].
Qed.

Lemma editing_task_standards_witness :
  Py.contains "house style"
    (ResearchCrew.description
       (ResearchCrew.create_editing_task (Some ["house style"]))) = true.
Proof.
  apply (proj1 (proj2 (proj2 editing_task_standards)) ["house style"] "house style").
  left; reflexivity.
Defined.

(** X19: the task list that [execute_research_project] hands to the crew
    is in dependency order: it holds four tasks, assigned to the crew's
    agents in the crew's own order; the first task has no context, and
    every task named in a task's context stands earlier in the list.  The
    editing task is built from the default standards whatever the
    arguments. *)
Theorem project_tasks_in_dependency_order topic focus_areas content_type audience tone :
  let tasks :=
    ResearchCrew.execute_research_project topic focus_areas content_type audience tone in
  List.map ResearchCrew.agent tasks = ResearchCrew.crew_agents /\
  (exists first, nth_error tasks 0 = Some first /\ ResearchCrew.context first = None) /\
  (forall i t deps d,
     nth_error tasks i = Some t ->
     ResearchCrew.context t = Some deps ->
     In d deps ->
     exists j, j < i /\ nth_error tasks j = Some d) /\
  (exists last,
     nth_error tasks 3 = Some last /\
     ResearchCrew.description last =
       ResearchCrew.description (ResearchCrew.create_editing_task None)).
Proof.
  intros tasks. subst tasks. unfold ResearchCrew.execute_research_project. cbv zeta.
  split; [reflexivity|].
  split; [eexists; split; reflexivity|].
  split; [|eexists; split; reflexivity].
  intros i t deps d Hi Hc Hd.
  destruct i as [|[|[|[|i]]]]; cbn [nth_error] in Hi;
    try (injection Hi as <-); cbn in Hc; try discriminate Hc;
    try (injection Hc as <-).
  - destruct Hd as [<- | []]. exists 0. split; [lia | reflexivity].
  - destruct Hd as [<- | [<- | []]].
    + exists 0. split; [lia | reflexivity].
    + exists 1. split; [lia | reflexivity].
  - destruct Hd as [<- | []]. exists 2. split; [lia | reflexivity].
  - destruct i; discriminate Hi.
Qed.

Lemma project_tasks_in_dependency_order_witness :
  exists j t d,
    nth_error (ResearchCrew.execute_research_project "AI" None "report"
                 "professional" "informative") 2 = Some t /\
    ResearchCrew.context t = Some [d; ResearchCrew.set_context
                                        (ResearchCrew.create_analysis_task
                                           "Research topic: AI") [d]] /\
    j < 2 /\
    nth_error (ResearchCrew.execute_research_project "AI" None "report"
                 "professional" "informative") j = Some d.
Proof.
  destruct (proj1 (proj2 (proj2
              (project_tasks_in_dependency_order "AI" None "report"
                 "professional" "informative")))
              2 _ _ (ResearchCrew.create_research_task "AI" None)
              eq_refl eq_refl (or_introl eq_refl)) as (j & Hj & E).
  exists j. eexists. exists (ResearchCrew.create_research_task "AI" None).
  split; [reflexivity|]. split; [reflexivity|]. split; [exact Hj | exact E].
Defined.
